(** * op-bindings/bindgen: local and Etherscan binding generators

    A shallow embedding of [local-contracts.go] and of the Etherscan
    generator next to it.  Go strings are [string] (a sequence of bytes),
    Go [int] and [time.Duration] are [Z] with the 64-bit wrap-around
    written out, Go maps are [gmap], and a Go [error] is a message together
    with the one sentinel the code tests for ([os.ErrNotExist]).

    Code that performs I/O is written in a small state monad over a
    [World]: the trace of the external actions the program has performed
    so far.  What the outside answers (HTTP bodies, file contents, the
    result of the binding generator) is given by an [Env] of oracles, each
    of which may depend on the whole history. *)

From Stdlib Require Import ZArith Ascii String List Bool Lia.
From stdpp Require Import base option list strings gmap pretty.

Local Open Scope string_scope.
Local Open Scope list_scope.
Local Open Scope Z_scope.

(** ** Go strings *)

Module GoString.

(** [len(s)] *)
Definition len (s : string) : nat := String.length s.

Fixpoint drop (n : nat) (s : string) : string :=
  match n, s with
  | O, _ => s
  | S n', String _ r => drop n' r
  | S _, EmptyString => EmptyString
  end.

Fixpoint take (n : nat) (s : string) : string :=
  match n, s with
  | O, _ => EmptyString
  | S n', String c r => String c (take n' r)
  | S _, EmptyString => EmptyString
  end.

(** [strings.HasPrefix(s, prefix)] *)
Fixpoint HasPrefix (s prefix : string) {struct prefix} : bool :=
  match prefix with
  | EmptyString => true
  | String a prefix' =>
      match s with
      | EmptyString => false
      | String b s' => bool_decide (a = b) && HasPrefix s' prefix'
      end
  end.

(** [strings.HasSuffix(s, suffix)]:
    [len(s) >= len(suffix) && s[len(s)-len(suffix):] == suffix] *)
Definition HasSuffix (s suffix : string) : bool :=
  (len suffix <=? len s)%nat &&
  bool_decide (drop (len s - len suffix) s = suffix).

(** [strings.TrimSuffix(s, suffix)] *)
Definition TrimSuffix (s suffix : string) : string :=
  if HasSuffix s suffix then take (len s - len suffix) s else s.

(** [strings.Split(s, ",")] for the one-byte separator the generators
    use: the fields between the separators, [[""]] for the empty string. *)
Fixpoint Split (s : string) (sep : ascii) : list string :=
  match s with
  | EmptyString => [EmptyString]
  | String c r =>
      if bool_decide (c = sep) then EmptyString :: Split r sep
      else match Split r sep with
           | f :: fs => String c f :: fs
           | [] => [String c EmptyString]
           end
  end.

(** The last path element after the final separator: the loop
    [for i >= 0 && !os.IsPathSeparator(path[i]) { i-- }] of
    [filepath.Base], returning [path[i+1:]]. *)
Fixpoint last_element (path : string) : string :=
  match path with
  | EmptyString => EmptyString
  | String c r =>
      if existsb (fun d => bool_decide (d = "/"%char)) (list_ascii_of_string r)
      then last_element r
      else if bool_decide (c = "/"%char) then r else path
  end.

Fixpoint strip_trailing_slashes_rev (l : list ascii) : list ascii :=
  match l with
  | c :: r => if bool_decide (c = "/"%char) then strip_trailing_slashes_rev r else l
  | [] => []
  end.

Definition strip_trailing_slashes (path : string) : string :=
  string_of_list_ascii
    (rev (strip_trailing_slashes_rev (rev (list_ascii_of_string path)))).

(** [filepath.Base(path)] on a Unix system (no volume names). *)
Definition Base (path : string) : string :=
  if bool_decide (path = "") then "."
  else
    let path := strip_trailing_slashes path in
    let path := last_element path in
    if bool_decide (path = "") then "/" else path.

End GoString.

(** ** The compiler-version pattern

    [regexp.MustCompile(`\.\d+\.\d+\.\d+`)] and [ReplaceAllString(name, "")].
    A match at a given position is unique up to the length of its last run
    of digits, which the greedy [\d+] takes whole; matches are found left to
    right and do not overlap. *)

Module VersionRegexp.

Definition is_digit (c : ascii) : bool :=
  let n := nat_of_ascii c in ((48 <=? n) && (n <=? 57))%nat.

(** [\.] *)
Definition dot (s : string) : option string :=
  match s with
  | String c r => if bool_decide (c = "."%char) then Some r else None
  | EmptyString => None
  end.

Fixpoint drop_digits (s : string) : string :=
  match s with
  | String c r => if is_digit c then drop_digits r else s
  | EmptyString => s
  end.

(** [\d+] *)
Definition digits (s : string) : option string :=
  match s with
  | String c r => if is_digit c then Some (drop_digits r) else None
  | EmptyString => None
  end.

(** What is left of [s] after a match that starts at its first byte. *)
Definition match_prefix (s : string) : option string :=
  r ← dot s; r ← digits r; r ← dot r; r ← digits r; r ← dot r; digits r.

(** Length of the match that starts at the first byte of [s]. *)
Definition match_length (s : string) : option nat :=
  r ← match_prefix s; Some (String.length s - String.length r)%nat.

(** [skip] is the number of bytes still to delete from the match in
    progress. *)
Fixpoint remove_from (skip : nat) (s : string) : string :=
  match s with
  | EmptyString => EmptyString
  | String c r =>
      match skip with
      | S k => remove_from k r
      | O =>
          match match_length s with
          | Some n => remove_from (Nat.pred n) r
          | None => String c (remove_from O r)
          end
      end
  end.

(** [re.ReplaceAllString(name, "")] *)
Definition ReplaceAllString_empty (name : string) : string := remove_from O name.

End VersionRegexp.

(** ** Errors *)

(** A Go [error]: its message ([err.Error()], what [%v] prints) and whether
    [errors.Is(err, os.ErrNotExist)] holds. *)
Record error := mkError { Error : string; is_ErrNotExist : bool }.

#[global] Instance error_eq_dec : EqDecision error.
Proof. solve_decision. Defined.

(** [fmt.Errorf] with [%s], [%v], [%d] and [%q] verbs only: a fresh error
    that wraps nothing. *)
Definition Errorf (msg : string) : error := mkError msg false.

(** ** getContractArtifactPaths *)

(** One call of the [filepath.Walk] callback: the path visited and the
    error [Walk] met when it examined that path, if any. *)
Definition WalkEntry : Type := string * option error.

Module ArtifactPaths.

(** The contract name under which the file at [path] is indexed:
    [filepath.Base], then [strings.TrimSuffix(base, ".json")], then the
    compiler version removed. *)
Definition sanitized (path : string) : string :=
  let base := GoString.Base path in
  let name := GoString.TrimSuffix base ".json" in
  VersionRegexp.ReplaceAllString_empty name.

(** The body of the callback on a path with no error. *)
Definition visit (artifactPaths : gmap string string) (path : string)
  : gmap string string :=
  if GoString.HasSuffix path ".json" then
    let sanitized := sanitized path in
    match artifactPaths !! sanitized with
    | None => <[sanitized := path]> artifactPaths
    | Some _ => artifactPaths
    end
  else artifactPaths.

(** [filepath.Walk] with the callback of [getContractArtifactPaths]: the
    entries are visited in order, and the first error stops the walk. *)
Fixpoint walk (entries : list WalkEntry) (artifactPaths : gmap string string)
  : gmap string string * option error :=
  match entries with
  | [] => (artifactPaths, None)
  | (path, Some err) :: _ => (artifactPaths, Some err)
  | (path, None) :: rest => walk rest (visit artifactPaths path)
  end.

End ArtifactPaths.

(** [getContractArtifactPaths], on the sequence of callbacks that
    [filepath.Walk(forgeArtifactsPath, ...)] performs. *)
Definition getContractArtifactPaths (entries : list WalkEntry)
  : gmap string string * option error :=
  ArtifactPaths.walk entries ∅.

(** ** The world outside the program *)

(** [log.Printf] calls, by call site. *)
Inductive LogMsg :=
| LogUnmarshalApiResponseFailed (err : error)
| LogRateLimit (retryDelay : Z)
| LogUnmarshalRpcResponseFailed (err : error)
| LogGeneratingEtherscan (name : string)
| LogGeneratingLocal (name : string)
| LogCannotFindArtifact (name standardPath otherPath : string)
| LogUsingArtifact (path : string)
| LogWroteMetadata (name path : string)
| LogRemoveTempDirFailed (dir : string) (err : error)
| LogRemovedTempDir.

Record etherscanContract := mkEtherscanContract {
  ec_Name : string;
  ec_DeployedAddress : string;
  ec_PredeployAddress : string;
  ec_Abi : string;
  ec_Bytecode : string
}.

Record etherscanApiResponse := mkApiResponse {
  api_Status : string;
  api_Message : string;
  api_Result : string
}.

Record etherscanRpcApiResponse := mkRpcApiResponse {
  rpc_JsonRpc : string;
  rpc_Id : Z;
  rpc_Result : string
}.

Record etherscanContractMetadata := mkEtherscanMetadata {
  em_Name : string;
  em_DeployedBin : string;
  em_Package : string
}.

Record localContractMetadata := mkLocalMetadata {
  lm_Name : string;
  lm_StorageLayout : string;
  lm_DeployedBin : string;
  lm_Package : string;
  lm_DeployedSourceMap : string
}.

(** Modelled from the spec: the manifest type [contractsData], declared
    with [readJSONFile] outside these sources; a JSON object with two
    sequences, the remote contract specs and the local contract names. *)
Record contractsData := mkContractsData {
  cd_Local : list string;
  cd_Etherscan : list etherscanContract
}.

(** The external actions of a run, in the order they happen. *)
Inductive Event :=
| EvLog (msg : LogMsg)
| EvHttpGet (url : string)
| EvSleep (d : Z)
| EvReadJSONFile (path : string)
| EvMkTempArtifactsDir
| EvRemoveAll (dir : string)
| EvWalk (root : string)
| EvReadFile (path : string)
| EvWriteContractArtifacts (dir name abi bytecode : string)
| EvGenContractBindings (abiFilePath bytecodeFilePath goPackageName name : string)
| EvOpenFile (path : string)
| EvCloseFile (path : string)
| EvExecuteEtherscanTemplate (path : string) (data : etherscanContractMetadata)
| EvExecuteLocalTemplate (path : string) (data : localContractMetadata).

Definition World : Type := list Event.

(** The state monad of a run. *)
Definition M (A : Type) : Type := World -> A * World.

Definition ret {A} (a : A) : M A := fun w => (a, w).

Definition bind {A B} (m : M A) (k : A -> M B) : M B :=
  fun w => let (a, w') := m w in k a w'.

Notation "'let*' x ':=' m 'in' k" := (bind m (fun x => k))
  (at level 10, x name, m at level 100, k at level 200).
Notation "'let*' ' pat ':=' m 'in' k" := (bind m (fun x => match x with pat => k end))
  (at level 10, pat pattern, m at level 100, k at level 200).

(** Perform an external action. *)
Definition emit (e : Event) : M unit := fun w => (tt, w ++ [e]).

(** Ask an oracle about the history so far. *)
Definition ask {A} (oracle : World -> A) : M A := fun w => (oracle w, w).

(** [defer]: the deferred call runs when the body has returned. *)
Definition with_defer {A} (body : M A) (deferred : M unit) : M A :=
  let* r := body in let* _ := deferred in ret r.

(** The number of HTTP requests issued so far. *)
Definition is_HttpGet (e : Event) : bool :=
  match e with EvHttpGet _ => true | _ => false end.

Definition requests (w : World) : nat := length (List.filter is_HttpGet w).

(** The answer to [http.Get(url)] followed by [io.ReadAll(resp.Body)]. *)
Inductive HttpAnswer :=
| GetFailed (err : error)
| ReadAllFailed (err : error)
| Body (body : string).

(** Modelled from the spec: [foundry.Artifact], whose declaration is not
    among the sources.  The local artifact file exposes [abi],
    [bytecode.object], [deployedBytecode.object],
    [deployedBytecode.sourceMap] and [storageLayout]; the two [Object]
    fields hold what [Object.String()] prints.  The storage layout type
    [SL] ([solc.StorageLayout]) is left open. *)
Record Artifact (SL : Type) := mkArtifact {
  art_Abi : string;
  art_StorageLayout : SL;
  art_DeployedBytecode_SourceMap : string;
  art_DeployedBytecode_Object : string;
  art_Bytecode_Object : string
}.
Arguments mkArtifact {SL}.
Arguments art_Abi {SL}.
Arguments art_StorageLayout {SL}.
Arguments art_DeployedBytecode_SourceMap {SL}.
Arguments art_DeployedBytecode_Object {SL}.
Arguments art_Bytecode_Object {SL}.

(** What the run does not decide itself: the answers of the network and of
    the file system, the helpers of the package that live outside these
    sources ([readJSONFile], [writeContractArtifacts],
    [genContractBindings], [ast.CanonicalizeASTIDs]) and the library
    functions whose result is only passed along.  An answer may depend on
    everything the run has done before. *)
Record Env (SL : Type) := mkEnv {
  http : World -> string -> HttpAnswer;
  json_Unmarshal_etherscanApiResponse : string -> etherscanApiResponse * option error;
  json_Unmarshal_etherscanRpcApiResponse : string -> etherscanRpcApiResponse * option error;
  readJSONFile : World -> string -> contractsData * option error;
  os_RemoveAll : World -> string -> option error;
  filepath_Walk : World -> string -> list WalkEntry;
  os_ReadFile : World -> string -> string * option error;
  json_Unmarshal_Artifact : string -> Artifact SL * option error;
  ast_CanonicalizeASTIDs : SL -> string -> SL;
  json_Marshal_StorageLayout : SL -> string * option error;
  writeContractArtifacts :
    World -> string -> string -> string -> string -> (string * string) * option error;
  genContractBindings : World -> string -> string -> string -> string -> option error;
  os_OpenFile : World -> string -> option error;
  template_Execute_etherscan : World -> string -> etherscanContractMetadata -> option error;
  template_Execute_local : World -> string -> localContractMetadata -> option error;
  path_Join : list string -> string;
  strings_ToLower : string -> string;
  strconv_Quote : string -> string
}.
Arguments http {SL}.
Arguments json_Unmarshal_etherscanApiResponse {SL}.
Arguments json_Unmarshal_etherscanRpcApiResponse {SL}.
Arguments readJSONFile {SL}.
Arguments os_RemoveAll {SL}.
Arguments filepath_Walk {SL}.
Arguments os_ReadFile {SL}.
Arguments json_Unmarshal_Artifact {SL}.
Arguments ast_CanonicalizeASTIDs {SL}.
Arguments json_Marshal_StorageLayout {SL}.
Arguments writeContractArtifacts {SL}.
Arguments genContractBindings {SL}.
Arguments os_OpenFile {SL}.
Arguments template_Execute_etherscan {SL}.
Arguments template_Execute_local {SL}.
Arguments path_Join {SL}.
Arguments strings_ToLower {SL}.
Arguments strconv_Quote {SL}.

(** ** Durations *)

(** [time.Second], in nanoseconds. *)
Definition Second : Z := 1000000000.

(** A 64-bit signed integer after an overflowing operation. *)
Definition wrap64 (z : Z) : Z := (z + 2 ^ 63) mod 2 ^ 64 - 2 ^ 63.

(** [time.Duration(apiRetryDelay) * time.Second] *)
Definition retryDelay_of (apiRetryDelay : Z) : Z := wrap64 (apiRetryDelay * Second).

(** ** The Etherscan generator *)

Definition etherscanGetAbiURL (address apikey : string) : string :=
  "https://api.etherscan.io/api?module=contract&action=getabi&address="
    +:+ address +:+ "&apikey=" +:+ apikey.

Definition etherscanGetBytecodeURL (address apikey : string) : string :=
  "https://api.etherscan.io/api?module=proxy&action=eth_getCode&address="
    +:+ address +:+ "&tag=latest&apikey=" +:+ apikey.

(** [%v] of an [etherscanApiResponse]: the fields between braces. *)
Definition fmt_v_apiResponse (r : etherscanApiResponse) : string :=
  "{" +:+ api_Status r +:+ " " +:+ api_Message r +:+ " " +:+ api_Result r +:+ "}".

(** What one turn of a [for] loop does next. *)
Inductive Step (A : Type) :=
| Continue
| Return (a : A).
Arguments Continue {A}.
Arguments Return {A}.

Section Generators.

Context {SL : Type} `{!Inhabited SL}.
Variable env : Env SL.
Variable mkTempArtifactsDir : World -> string * option error.

Definition readEtherscanContractsList (filePath : string)
  : M (list etherscanContract * option error) :=
  let* _ := emit (EvReadJSONFile filePath) in
  let* '(data, err) := ask (fun w => readJSONFile env w filePath) in
  ret (cd_Etherscan data, err).

Definition fetchEtherscanData (url : string) : M (string * option error) :=
  let* _ := emit (EvHttpGet url) in
  let* answer := ask (fun w => http env w url) in
  match answer with
  | GetFailed err => ret ("", Some err)
  | ReadAllFailed err => ret ("", Some err)
  | Body body => ret (body, None)
  end.

(** The body of the retry loop of [fetchEtherscanAbi]. *)
Definition fetchEtherscanAbi_attempt (url : string) (retryDelay : Z)
  : M (Step (string * option error)) :=
  let* '(body, err) := fetchEtherscanData url in
  match err with
  | Some err => ret (Return ("", Some err))
  | None =>
      let '(apiResponse, err) := json_Unmarshal_etherscanApiResponse env body in
      match err with
      | Some err =>
          let* _ := emit (EvLog (LogUnmarshalApiResponseFailed err)) in
          ret (Return ("", Some err))
      | None =>
          if bool_decide (api_Message apiResponse = "NOTOK")
             && bool_decide (api_Result apiResponse = "Max rate limit reached")
          then
            let* _ := emit (EvLog (LogRateLimit retryDelay)) in
            let* _ := emit (EvSleep retryDelay) in
            ret Continue
          else if negb (bool_decide (api_Message apiResponse = "OK")) then
            ret (Return ("", Some (Errorf
              ("There was an issue with the Etherscan request to " +:+ url
               +:+ ", received response: " +:+ fmt_v_apiResponse apiResponse))))
          else ret (Return (api_Result apiResponse, None))
      end
  end.

(** [for retries := 0; retries < maxRetries; retries++ { ... }] with
    [remaining] turns to go, and the statement after the loop. *)
Fixpoint fetchEtherscanAbi_loop (url : string) (maxRetries retryDelay : Z)
    (remaining : nat) : M (string * option error) :=
  match remaining with
  | O =>
      ret ("", Some (Errorf
        ("Failed to fetch ABI after " +:+ pretty maxRetries +:+ " retries")))
  | S remaining' =>
      let* step := fetchEtherscanAbi_attempt url retryDelay in
      match step with
      | Continue => fetchEtherscanAbi_loop url maxRetries retryDelay remaining'
      | Return r => ret r
      end
  end.

Definition fetchEtherscanAbi (url : string) (apiMaxRetries apiRetryDelay : Z)
  : M (string * option error) :=
  let maxRetries := apiMaxRetries in
  let retryDelay := retryDelay_of apiRetryDelay in
  fetchEtherscanAbi_loop url maxRetries retryDelay (Z.to_nat maxRetries).

Definition fetchEtherscanBytecode (url : string) : M (string * option error) :=
  let* '(body, err) := fetchEtherscanData url in
  match err with
  | Some err => ret ("", Some err)
  | None =>
      let '(rpcResponse, err) := json_Unmarshal_etherscanRpcApiResponse env body in
      match err with
      | Some err =>
          let* _ := emit (EvLog (LogUnmarshalRpcResponseFailed err)) in
          ret ("", Some err)
      | None => ret (rpc_Result rpcResponse, None)
      end
  end.

Definition writeEtherscanContractMetadata (contractMetaData : etherscanContractMetadata)
    (metadataOutputDir contractName : string) : M (option error) :=
  let metaDataFilePath :=
    path_Join env [metadataOutputDir; strings_ToLower env contractName +:+ "_more.go"] in
  let* _ := emit (EvOpenFile metaDataFilePath) in
  let* err := ask (fun w => os_OpenFile env w metaDataFilePath) in
  with_defer
    (match err with
     | Some err =>
         ret (Some (Errorf ("Error opening " +:+ contractName +:+ "'s metadata file at "
                            +:+ metaDataFilePath +:+ ": " +:+ Error err)))
     | None =>
         let* _ := emit (EvExecuteEtherscanTemplate metaDataFilePath contractMetaData) in
         let* err :=
           ask (fun w => template_Execute_etherscan env w metaDataFilePath contractMetaData) in
         match err with
         | Some err =>
             ret (Some (Errorf ("Error writing " +:+ contractName
                                +:+ "'s contract metadata at " +:+ metaDataFilePath
                                +:+ ": " +:+ Error err)))
         | None =>
             let* _ := emit (EvLog (LogWroteMetadata contractName metaDataFilePath)) in
             ret None
         end
     end)
    (emit (EvCloseFile metaDataFilePath)).

(** The deferred removal of the temporary directory. *)
Definition removeTempArtifactsDir (tempArtifactsDir : string) : M unit :=
  let* _ := emit (EvRemoveAll tempArtifactsDir) in
  let* err := ask (fun w => os_RemoveAll env w tempArtifactsDir) in
  match err with
  | Some err => emit (EvLog (LogRemoveTempDirFailed tempArtifactsDir err))
  | None => emit (EvLog LogRemovedTempDir)
  end.

(** [sourceMapsSet]: the fields of the comma-separated list, as a set. *)
Definition sourceMapsSet_of (sourceMapsListStr : string) : gset string :=
  let sourceMapsList := GoString.Split sourceMapsListStr ","%char in
  foldl (fun sourceMapsSet k => {[k]} ∪ sourceMapsSet) ∅ sourceMapsList.

(** One turn of the loop of [genEtherscanBindings]: [Some err] is
    [return err], [None] goes on to the next contract. *)
Definition genEtherscanBindings_contract
    (etherscanApiKey goPackageName metadataOutputDir : string)
    (apiMaxRetries apiRetryDelay : Z) (tempArtifactsDir : string)
    (contract : etherscanContract) : M (option error) :=
  let* _ := emit (EvLog (LogGeneratingEtherscan (ec_Name contract))) in
  let* '(abi, err) :=
    fetchEtherscanAbi (etherscanGetAbiURL (ec_DeployedAddress contract) etherscanApiKey)
      apiMaxRetries apiRetryDelay in
  match err with
  | Some err => ret (Some err)
  | None =>
  let* '(bytecode, err) :=
    fetchEtherscanBytecode
      (etherscanGetBytecodeURL (ec_DeployedAddress contract) etherscanApiKey) in
  match err with
  | Some err => ret (Some err)
  | None =>
  let* _ := emit (EvWriteContractArtifacts tempArtifactsDir (ec_Name contract) abi bytecode) in
  let* '(abiFilePath, bytecodeFilePath, err) :=
    ask (fun w => writeContractArtifacts env w tempArtifactsDir (ec_Name contract)
                    abi bytecode) in
  match err with
  | Some err => ret (Some err)
  | None =>
  let* _ := emit (EvGenContractBindings abiFilePath bytecodeFilePath goPackageName
                    (ec_Name contract)) in
  let* err :=
    ask (fun w => genContractBindings env w abiFilePath bytecodeFilePath goPackageName
                    (ec_Name contract)) in
  match err with
  | Some err => ret (Some err)
  | None =>
  let contractMetaData :=
    {| em_Name := ec_Name contract;
       em_DeployedBin := bytecode;
       em_Package := goPackageName |} in
  writeEtherscanContractMetadata contractMetaData metadataOutputDir (ec_Name contract)
  end end end end.

(** [for _, contract := range contracts { ... }] and the [return nil]
    after it. *)
Fixpoint genEtherscanBindings_loop
    (etherscanApiKey goPackageName metadataOutputDir : string)
    (apiMaxRetries apiRetryDelay : Z) (tempArtifactsDir : string)
    (contracts : list etherscanContract) : M (option error) :=
  match contracts with
  | [] => ret None
  | contract :: rest =>
      let* err :=
        genEtherscanBindings_contract etherscanApiKey goPackageName metadataOutputDir
          apiMaxRetries apiRetryDelay tempArtifactsDir contract in
      match err with
      | Some err => ret (Some err)
      | None =>
          genEtherscanBindings_loop etherscanApiKey goPackageName metadataOutputDir
            apiMaxRetries apiRetryDelay tempArtifactsDir rest
      end
  end.

Definition genEtherscanBindings
    (contractListFilePath sourceMapsListStr etherscanApiKey goPackageName
       metadataOutputDir : string)
    (apiMaxRetries apiRetryDelay : Z) : M (option error) :=
  let* '(contracts, err) := readEtherscanContractsList contractListFilePath in
  match err with
  | Some err =>
      ret (Some (Errorf ("Error reading contract list " +:+ contractListFilePath
                         +:+ ": " +:+ Error err)))
  | None =>
  if bool_decide (length contracts = 0%nat) then
    ret (Some (Errorf ("No contracts parsable from given contract list: "
                       +:+ contractListFilePath)))
  else
    let* _ := emit EvMkTempArtifactsDir in
    let* '(tempArtifactsDir, err) := ask mkTempArtifactsDir in
    with_defer
      (let sourceMapsSet := sourceMapsSet_of sourceMapsListStr in
       genEtherscanBindings_loop etherscanApiKey goPackageName metadataOutputDir
         apiMaxRetries apiRetryDelay tempArtifactsDir contracts)
      (removeTempArtifactsDir tempArtifactsDir)
  end.

(** *** The local generator *)

Definition readLocalContractList (filePath : string) : M (list string * option error) :=
  let* _ := emit (EvReadJSONFile filePath) in
  let* '(data, err) := ask (fun w => readJSONFile env w filePath) in
  ret (cd_Local data, err).

(** [getContractArtifactPaths] on the directory the world holds. *)
Definition getContractArtifactPaths_at (forgeArtifactsPath : string)
  : M (gmap string string * option error) :=
  let* _ := emit (EvWalk forgeArtifactsPath) in
  let* entries := ask (fun w => filepath_Walk env w forgeArtifactsPath) in
  ret (getContractArtifactPaths entries).

(** [os.ReadFile] *)
Definition ReadFile (path : string) : M (string * option error) :=
  let* _ := emit (EvReadFile path) in
  ask (fun w => os_ReadFile env w path).

(** [errors.Is(err, os.ErrNotExist)] *)
Definition errors_Is_ErrNotExist (err : option error) : bool :=
  match err with
  | Some err => is_ErrNotExist err
  | None => false
  end.

(** The zero value of [foundry.Artifact]. *)
Definition Artifact_zero : Artifact SL := mkArtifact "" inhabitant "" "" "".

Definition readForgeArtifact (forgeArtifactsPath contractName : string)
    (contractArtifactPaths : gmap string string) : M (Artifact SL * option error) :=
  let contractArtifactPath :=
    path_Join env [forgeArtifactsPath; contractName +:+ ".sol"; contractName +:+ ".json"] in
  let* '(forgeArtifactRaw, err) := ReadFile contractArtifactPath in
  let* found :=
    if errors_Is_ErrNotExist err then
      let other := default "" (contractArtifactPaths !! contractName) in
      let* _ := emit (EvLog (LogCannotFindArtifact contractName contractArtifactPath other)) in
      let contractArtifactPath := other in
      let* '(forgeArtifactRaw, err) := ReadFile contractArtifactPath in
      if errors_Is_ErrNotExist err then ret None
      else ret (Some (contractArtifactPath, forgeArtifactRaw))
    else ret (Some (contractArtifactPath, forgeArtifactRaw)) in
  match found with
  | None =>
      ret (Artifact_zero,
           Some (Errorf ("Cannot find forge-artifact of " +:+ strconv_Quote env contractName
                         +:+ String (ascii_of_nat 10) "")))
  | Some (contractArtifactPath, forgeArtifactRaw) =>
      let* _ := emit (EvLog (LogUsingArtifact contractArtifactPath)) in
      let '(forgeArtifact, err) := json_Unmarshal_Artifact env forgeArtifactRaw in
      match err with
      | Some err =>
          ret (forgeArtifact,
               Some (Errorf ("Failed to parse forge artifact of "
                             +:+ strconv_Quote env contractName +:+ ": " +:+ Error err
                             +:+ String (ascii_of_nat 10) "")))
      | None => ret (forgeArtifact, None)
      end
  end.

(** [strings.Replace] of every double quote (byte 34) by a backslash
    (byte 92) and the double quote. *)
Fixpoint escape_quotes (s : string) : string :=
  match s with
  | EmptyString => EmptyString
  | String c r =>
      if bool_decide (c = ascii_of_nat 34)
      then String (ascii_of_nat 92) (String c (escape_quotes r))
      else String c (escape_quotes r)
  end.

Definition canonicalizeStorageLayout (forgeArtifact : Artifact SL)
    (monorepoBasePath : string) (sourceMapsSet : gset string) (contractName : string)
  : string * string * option error :=
  let artifactStorageStruct := art_StorageLayout forgeArtifact in
  let canonicalStorageStruct :=
    ast_CanonicalizeASTIDs env artifactStorageStruct monorepoBasePath in
  let '(canonicalStorageJson, err) := json_Marshal_StorageLayout env canonicalStorageStruct in
  match err with
  | Some err =>
      ("", "", Some (Errorf ("Error marshaling canonical storage: " +:+ Error err)))
  | None =>
      let canonicalStorageStr := escape_quotes canonicalStorageJson in
      let deployedSourceMap :=
        if bool_decide (contractName ∈ sourceMapsSet)
        then art_DeployedBytecode_SourceMap forgeArtifact
        else "" in
      (deployedSourceMap, canonicalStorageStr, None)
  end.

Definition writeLocalContractMetadata (contractMetaData : localContractMetadata)
    (metadataOutputDir contractName : string) : M (option error) :=
  let metaDataFilePath :=
    path_Join env [metadataOutputDir; strings_ToLower env contractName +:+ "_more.go"] in
  let* _ := emit (EvOpenFile metaDataFilePath) in
  let* err := ask (fun w => os_OpenFile env w metaDataFilePath) in
  with_defer
    (match err with
     | Some err =>
         ret (Some (Errorf ("Error opening " +:+ contractName +:+ "'s metadata file at "
                            +:+ metaDataFilePath +:+ ": " +:+ Error err)))
     | None =>
         let* _ := emit (EvExecuteLocalTemplate metaDataFilePath contractMetaData) in
         let* err :=
           ask (fun w => template_Execute_local env w metaDataFilePath contractMetaData) in
         match err with
         | Some err =>
             ret (Some (Errorf ("Error writing " +:+ contractName
                                +:+ "'s contract metadata at " +:+ metaDataFilePath
                                +:+ ": " +:+ Error err)))
         | None =>
             let* _ := emit (EvLog (LogWroteMetadata contractName metaDataFilePath)) in
             ret None
         end
     end)
    (emit (EvCloseFile metaDataFilePath)).

(** One turn of the loop of [genLocalBindings]. *)
Definition genLocalBindings_contract
    (forgeArtifactsPath goPackageName monorepoBasePath metadataOutputDir : string)
    (tempArtifactsDir : string) (contractArtifactPaths : gmap string string)
    (sourceMapsSet : gset string) (contractName : string) : M (option error) :=
  let* _ := emit (EvLog (LogGeneratingLocal contractName)) in
  let* '(forgeArtifact, err) :=
    readForgeArtifact forgeArtifactsPath contractName contractArtifactPaths in
  match err with
  | Some err => ret (Some err)
  | None =>
  let* _ := emit (EvWriteContractArtifacts tempArtifactsDir contractName
                    (art_Abi forgeArtifact) (art_Bytecode_Object forgeArtifact)) in
  let* '(abiFilePath, bytecodeFilePath, err) :=
    ask (fun w => writeContractArtifacts env w tempArtifactsDir contractName
                    (art_Abi forgeArtifact) (art_Bytecode_Object forgeArtifact)) in
  match err with
  | Some err => ret (Some err)
  | None =>
  let* _ := emit (EvGenContractBindings abiFilePath bytecodeFilePath goPackageName
                    contractName) in
  let* err :=
    ask (fun w => genContractBindings env w abiFilePath bytecodeFilePath goPackageName
                    contractName) in
  match err with
  | Some err => ret (Some err)
  | None =>
  let '(deployedSourceMap, canonicalStorageStr, err) :=
    canonicalizeStorageLayout forgeArtifact monorepoBasePath sourceMapsSet contractName in
  let contractMetaData :=
    {| lm_Name := contractName;
       lm_StorageLayout := canonicalStorageStr;
       lm_DeployedBin := art_DeployedBytecode_Object forgeArtifact;
       lm_Package := goPackageName;
       lm_DeployedSourceMap := deployedSourceMap |} in
  writeLocalContractMetadata contractMetaData metadataOutputDir contractName
  end end end.

Fixpoint genLocalBindings_loop
    (forgeArtifactsPath goPackageName monorepoBasePath metadataOutputDir : string)
    (tempArtifactsDir : string) (contractArtifactPaths : gmap string string)
    (sourceMapsSet : gset string) (contracts : list string) : M (option error) :=
  match contracts with
  | [] => ret None
  | contractName :: rest =>
      let* err :=
        genLocalBindings_contract forgeArtifactsPath goPackageName monorepoBasePath
          metadataOutputDir tempArtifactsDir contractArtifactPaths sourceMapsSet
          contractName in
      match err with
      | Some err => ret (Some err)
      | None =>
          genLocalBindings_loop forgeArtifactsPath goPackageName monorepoBasePath
            metadataOutputDir tempArtifactsDir contractArtifactPaths sourceMapsSet rest
      end
  end.

Definition genLocalBindings
    (contractListFilePath sourceMapsListStr forgeArtifactsPath goPackageName
       monorepoBasePath metadataOutputDir : string) : M (option error) :=
  let* '(contracts, err) := readLocalContractList contractListFilePath in
  match err with
  | Some err =>
      ret (Some (Errorf ("Error reading contract list " +:+ contractListFilePath
                         +:+ ": " +:+ Error err)))
  | None =>
  if bool_decide (length contracts = 0%nat) then
    ret (Some (Errorf ("No contracts parsable from given contract list: "
                       +:+ contractListFilePath)))
  else
    let* _ := emit EvMkTempArtifactsDir in
    let* '(tempArtifactsDir, err) := ask mkTempArtifactsDir in
    with_defer
      (let* '(contractArtifactPaths, err) := getContractArtifactPaths_at forgeArtifactsPath in
       match err with
       | Some err => ret (Some err)
       | None =>
           let sourceMapsSet := sourceMapsSet_of sourceMapsListStr in
           genLocalBindings_loop forgeArtifactsPath goPackageName monorepoBasePath
             metadataOutputDir tempArtifactsDir contractArtifactPaths sourceMapsSet
             contracts
       end)
      (removeTempArtifactsDir tempArtifactsDir)
  end.

End Generators.

(** ** A scripted environment

    Enough of an outside world to run the generators on examples: HTTP
    answers taken from a script by request number, status envelopes written
    [status|message|result], and a file system given as a function. *)

Module Scripted.

(** A body [status|message|result] as a status envelope. *)
Definition unmarshal_envelope (body : string) : etherscanApiResponse * option error :=
  match GoString.Split body "|"%char with
  | [status; message; result] => (mkApiResponse status message result, None)
  | _ => (mkApiResponse "" "" "", Some (Errorf "invalid character"))
  end.

Definition unmarshal_rpc (body : string) : etherscanRpcApiResponse * option error :=
  (mkRpcApiResponse "2.0" 1 body, None).

Definition rate_limit_body : string := "0|NOTOK|Max rate limit reached".

(** The [n]-th request is answered by the [n]-th entry of [script], and by
    [last] once the script is used up. *)
Definition http_script (script : list HttpAnswer) (last : HttpAnswer)
  : World -> string -> HttpAnswer :=
  fun w _ => nth (Nat.pred (requests w)) script last.

Definition not_exist : error := mkError "no such file or directory" true.

(** Artifacts are files holding [abi|sourceMap|deployedBin|bin]. *)
Definition unmarshal_artifact (raw : string) : Artifact string * option error :=
  match GoString.Split raw "|"%char with
  | [abi; sourceMap; deployed; bin] => (mkArtifact abi "layout" sourceMap deployed bin, None)
  | _ => (mkArtifact "" "" "" "" "", Some (Errorf "unexpected end of JSON input"))
  end.

Definition join (parts : list string) : string :=
  foldr (fun p acc => if bool_decide (acc = "") then p else p +:+ "/" +:+ acc) "" parts.

(** An environment in which everything but the scripted parts succeeds. *)
Definition env (script : list HttpAnswer) (last : HttpAnswer)
    (manifest : contractsData) (files : string -> string * option error)
    (tree : list WalkEntry) (marshal : string -> string * option error)
  : Env string :=
  {| http := http_script script last;
     json_Unmarshal_etherscanApiResponse := unmarshal_envelope;
     json_Unmarshal_etherscanRpcApiResponse := unmarshal_rpc;
     readJSONFile := fun _ _ => (manifest, None);
     os_RemoveAll := fun _ _ => None;
     filepath_Walk := fun _ _ => tree;
     os_ReadFile := fun _ path => files path;
     json_Unmarshal_Artifact := unmarshal_artifact;
     ast_CanonicalizeASTIDs := fun layout _ => layout;
     json_Marshal_StorageLayout := marshal;
     writeContractArtifacts :=
       fun _ dir name _ _ =>
         (join [dir; name +:+ ".abi"], join [dir; name +:+ ".bin"], None);
     genContractBindings := fun _ _ _ _ _ => None;
     os_OpenFile := fun _ _ => None;
     template_Execute_etherscan := fun _ _ _ => None;
     template_Execute_local := fun _ _ _ => None;
     path_Join := join;
     strings_ToLower := fun s => s;
     strconv_Quote := fun s => String (ascii_of_nat 34) (s +:+ String (ascii_of_nat 34) "") |}.

Definition mkTemp_ok : World -> string * option error := fun _ => ("/tmp/op-bindings", None).

Definition marshal_ok (layout : string) : string * option error := (layout, None).

Definition marshal_fails (layout : string) : string * option error :=
  ("", Some (Errorf "json: unsupported value")).

Definition no_files (path : string) : string * option error := ("", Some not_exist).

(** Every request meets the rate limit; the manifest is empty. *)
Definition limited_env : Env string :=
  env [] (Body rate_limit_body) (mkContractsData [] []) no_files [] marshal_ok.

(** Two rate-limited answers, then the ABI. *)
Definition recovering_env : Env string :=
  env [Body rate_limit_body; Body rate_limit_body; Body "1|OK|[abi]"]
    (GetFailed (Errorf "connection refused"))
    (mkContractsData [] []) no_files [] marshal_ok.

(** One rate-limited answer, then a refusal that is not a rate limit. *)
Definition refusing_env : Env string :=
  env [Body rate_limit_body; Body "0|NOTOK|Invalid API Key"] (Body rate_limit_body)
    (mkContractsData [] []) no_files [] marshal_ok.

Definition artifact_file : string := "[abi]|1:2:3|0xdeployed|0xbin".

(** Artifacts for [A] and [C] only; the network answers for one remote
    contract and then fails. *)
Definition files_A_C (path : string) : string * option error :=
  if bool_decide (path = "artifacts/A.sol/A.json") || bool_decide (path = "artifacts/C.sol/C.json")
  then (artifact_file, None)
  else ("", Some not_exist).

Definition three_contracts : contractsData :=
  mkContractsData ["A"; "B"; "C"]
    [mkEtherscanContract "Foo" "0xf00" "" "" "";
     mkEtherscanContract "Bar" "0xba7" "" "" "";
     mkEtherscanContract "Baz" "0xba2" "" "" ""].

Definition failing_second_env : Env string :=
  env [Body "1|OK|[abi]"; Body "0x6080"] (GetFailed (Errorf "connection refused"))
    three_contracts files_A_C [] marshal_ok.

(** One local contract whose canonical layout does not marshal. *)
Definition unmarshalable_env : Env string :=
  env [] (Body rate_limit_body) (mkContractsData ["A"] []) files_A_C [] marshal_fails.

(** One remote contract, every request rate-limited. *)
Definition limited_foo_env : Env string :=
  env [] (Body rate_limit_body)
    (mkContractsData [] [mkEtherscanContract "Foo" "0xf00" "" "" ""]) no_files []
    marshal_ok.

End Scripted.

(** ** Vocabulary of the properties *)

(** The rate-limit condition: message [NOTOK] with the result text
    [Max rate limit reached]. *)
Definition rate_limit_condition (r : etherscanApiResponse) : Prop :=
  api_Message r = "NOTOK" /\ api_Result r = "Max rate limit reached".

(** The answer is a body that parses as the status envelope [r]. *)
Definition envelope {SL} (env : Env SL) (answer : HttpAnswer) (r : etherscanApiResponse)
  : Prop :=
  exists body, answer = Body body /\ json_Unmarshal_etherscanApiResponse env body = (r, None).

Definition rate_limited {SL} (env : Env SL) (answer : HttpAnswer) : Prop :=
  exists r, envelope env answer r /\ rate_limit_condition r.

(** An answer that is neither the rate-limit condition nor a success. *)
Inductive terminal_answer {SL} (env : Env SL) : HttpAnswer -> Prop :=
| transport_failure err : terminal_answer env (GetFailed err)
| read_failure err : terminal_answer env (ReadAllFailed err)
| parse_failure body r err :
    json_Unmarshal_etherscanApiResponse env body = (r, Some err) ->
    terminal_answer env (Body body)
| other_status body r :
    json_Unmarshal_etherscanApiResponse env body = (r, None) ->
    api_Message r <> "OK" ->
    ~ rate_limit_condition r ->
    terminal_answer env (Body body).

(** The trace of [k] rate-limited attempts: request, wait notice, sleep. *)
Definition retry_trace (url : string) (retryDelay : Z) (k : nat) : World :=
  concat (replicate k [EvHttpGet url; EvLog (LogRateLimit retryDelay); EvSleep retryDelay]).

(** The number of calls of [time.Sleep] so far. *)
Definition is_Sleep (e : Event) : bool :=
  match e with EvSleep _ => true | _ => false end.

Definition sleeps (w : World) : nat := length (List.filter is_Sleep w).

(** [part] occurs in [whole]. *)
Definition mentions (part whole : string) : Prop :=
  exists pre post, whole = pre +:+ part +:+ post.

(** [strings.Contains(whole, part)] *)
Fixpoint contains (whole part : string) : bool :=
  GoString.HasPrefix whole part ||
  match whole with
  | EmptyString => false
  | String _ rest => contains rest part
  end.


(** ** The state file reader of cannon

    [parseState] opens a possibly compressed state file and deserializes
    it.  [ioutil.OpenDecompressed], [mipsevm.State] and its [Deserialize]
    are outside these sources: the state type is left open and the two
    calls are oracles over the actions performed so far. *)

Module Cannon.

Inductive Action :=
| OpenDecompressed (path : string)
| Deserialize (path : string)
| Close (path : string).

(** [fmt.Errorf] with a final [%w] verb: the message ends with the message
    of the cause, and [errors.Is] sees through to the cause. *)
Definition Errorf_w (msg : string) (cause : error) : error :=
  mkError (msg +:+ Error cause) (is_ErrNotExist cause).

Section ParseState.

Context {State : Type}.
Variable ioutil_OpenDecompressed : list Action -> string -> option error.
Variable state_Deserialize : list Action -> string -> State * option error.

(** The result is the pointer ([None] for [nil]) and the error, with the
    actions performed. *)
Definition parseState (path : string) (done : list Action)
  : (option State * option error) * list Action :=
  let done := done ++ [OpenDecompressed path] in
  match ioutil_OpenDecompressed done path with
  | Some err =>
      (None, Some (Errorf_w ("cannot open state file (" +:+ path +:+ "): ") err), done)
  | None =>
      let done := done ++ [Deserialize path] in
      let '(state, err) := state_Deserialize done path in
      match err with
      | Some err =>
          (None, Some (Errorf_w ("invalid mipsevm state (" +:+ path +:+ "): ") err),
           done ++ [Close path])
      | None => (Some state, None, done ++ [Close path])
      end
  end.

End ParseState.

End Cannon.

(** ** Vocabulary of the further properties *)

Fixpoint all_chars (P : ascii -> bool) (s : string) : bool :=
  match s with
  | EmptyString => true
  | String c r => P c && all_chars P r
  end.

Definition is_char (c : ascii) : ascii -> bool := fun d => bool_decide (d = c).

(** A contract name as a file stem: not empty, no path separator, no dot. *)
Definition plain_name (name : string) : Prop :=
  name <> "" /\ all_chars (fun c => negb (is_char "/" c) && negb (is_char "." c)) name = true.

(** A non-empty run of decimal digits. *)
Definition digit_run (s : string) : Prop :=
  s <> "" /\ all_chars VersionRegexp.is_digit s = true.

(** The compiler version [.a.b.c] that forge puts into a file name. *)
Definition version_suffix (a b c : string) : string :=
  "." +:+ a +:+ "." +:+ b +:+ "." +:+ c.

(** [strings.Join(elems, sep)] *)
Fixpoint Join (elems : list string) (sep : string) : string :=
  match elems with
  | [] => ""
  | [e] => e
  | e :: rest => e +:+ sep +:+ Join rest sep
  end.

Definition quote : ascii := ascii_of_nat 34.
Definition backslash : ascii := ascii_of_nat 92.

(** Every double quote of [s] comes right after a backslash;
    [after_backslash] tells whether the byte before [s] is one. *)
Fixpoint quotes_escaped_after (after_backslash : bool) (s : string) : bool :=
  match s with
  | EmptyString => true
  | String c r =>
      (if bool_decide (c = quote) then after_backslash else true)
      && quotes_escaped_after (bool_decide (c = backslash)) r
  end.

Definition quotes_escaped (s : string) : bool := quotes_escaped_after false s.

(** The inverse of the escaping: a backslash that stands right before a
    double quote is dropped. *)
Fixpoint unescape_quotes (s : string) : string :=
  match s with
  | EmptyString => EmptyString
  | String c r =>
      match r with
      | String d _ =>
          if bool_decide (c = backslash) && bool_decide (d = quote)
          then unescape_quotes r
          else String c (unescape_quotes r)
      | EmptyString => String c EmptyString
      end
  end.

(** The run reads an artifact file or walks the artifact directory. *)
Definition is_file_read (e : Event) : bool :=
  match e with
  | EvReadFile _ | EvWalk _ => true
  | _ => false
  end.

(** [m] performs no action selected by [P]. *)
Definition silent {A} (P : Event -> bool) (m : M A) : Prop :=
  forall w, List.filter P (m w).2 = List.filter P w.


(** [m] only adds actions to the trace. *)
Definition grows {A} (m : M A) : Prop :=
  forall w, exists added, (m w).2 = w ++ added.

(** The first action of [m] is [e]. *)
Definition begins_with (e : Event) {A} (m : M A) : Prop :=
  forall w, exists added, (m w).2 = w ++ e :: added.

(** The log line that reports the removal of the temporary directory. *)
Definition removal_log {SL} (env : Env SL) (dir : string) (w : World) : LogMsg :=
  match os_RemoveAll env (w ++ [EvRemoveAll dir]) dir with
  | Some err => LogRemoveTempDirFailed dir err
  | None => LogRemovedTempDir
  end.

(** ** Scripted environments with failures *)

Module Faulty.

(** [base] with a manifest that fails to parse after [data] was read. *)
Definition with_manifest_error (base : Env string) (data : contractsData) (err : error)
  : Env string :=
  {| http := http base;
     json_Unmarshal_etherscanApiResponse := json_Unmarshal_etherscanApiResponse base;
     json_Unmarshal_etherscanRpcApiResponse := json_Unmarshal_etherscanRpcApiResponse base;
     readJSONFile := fun _ _ => (data, Some err);
     os_RemoveAll := os_RemoveAll base;
     filepath_Walk := filepath_Walk base;
     os_ReadFile := os_ReadFile base;
     json_Unmarshal_Artifact := json_Unmarshal_Artifact base;
     ast_CanonicalizeASTIDs := ast_CanonicalizeASTIDs base;
     json_Marshal_StorageLayout := json_Marshal_StorageLayout base;
     writeContractArtifacts := writeContractArtifacts base;
     genContractBindings := genContractBindings base;
     os_OpenFile := os_OpenFile base;
     template_Execute_etherscan := template_Execute_etherscan base;
     template_Execute_local := template_Execute_local base;
     path_Join := path_Join base;
     strings_ToLower := strings_ToLower base;
     strconv_Quote := strconv_Quote base |}.

(** [base] with an output directory in which files open or not, and
    templates run or not, as told. *)
Definition with_output (base : Env string) (open execute : option error) : Env string :=
  {| http := http base;
     json_Unmarshal_etherscanApiResponse := json_Unmarshal_etherscanApiResponse base;
     json_Unmarshal_etherscanRpcApiResponse := json_Unmarshal_etherscanRpcApiResponse base;
     readJSONFile := readJSONFile base;
     os_RemoveAll := os_RemoveAll base;
     filepath_Walk := filepath_Walk base;
     os_ReadFile := os_ReadFile base;
     json_Unmarshal_Artifact := json_Unmarshal_Artifact base;
     ast_CanonicalizeASTIDs := ast_CanonicalizeASTIDs base;
     json_Marshal_StorageLayout := json_Marshal_StorageLayout base;
     writeContractArtifacts := writeContractArtifacts base;
     genContractBindings := genContractBindings base;
     os_OpenFile := fun _ _ => open;
     template_Execute_etherscan := fun _ _ _ => execute;
     template_Execute_local := fun _ _ _ => execute;
     path_Join := path_Join base;
     strings_ToLower := strings_ToLower base;
     strconv_Quote := strconv_Quote base |}.

Definition permission_denied : error := mkError "permission denied" false.

(** A temporary directory that cannot be created. *)
Definition mkTemp_fails : World -> string * option error :=
  fun _ => ("", Some permission_denied).

Definition no_space : error := mkError "no space left on device" false.

(** A walk that fails on the root of the artifact directory. *)
Definition unreadable_tree_env : Env string :=
  Scripted.env [] (Body Scripted.rate_limit_body) (mkContractsData ["A"] [])
    Scripted.files_A_C [("artifacts", Some permission_denied)] Scripted.marshal_ok.

(** A directory as the walk sees it: two artifacts of [Foo], one of [Bar],
    and files that are no artifacts. *)
Definition tree : list WalkEntry :=
  [("out", None);
   ("out/Bar.sol", None);
   ("out/Bar.sol/Bar.json", None);
   ("out/Foo.sol", None);
   ("out/Foo.sol/Foo.0.8.15.json", None);
   ("out/Foo.sol/Foo.json", None);
   ("out/build-info.txt", None)].

(** The state file reader on a file system where only [state.json] exists
    and holds the state [7]. *)
Definition open_state (_ : list Cannon.Action) (path : string) : option error :=
  if bool_decide (path = "state.json") then None else Some Scripted.not_exist.

Definition deserialize_state (_ : list Cannon.Action) (path : string) : nat * option error :=
  (7%nat, None).

End Faulty.

(** * Properties *)

(** ** The state monad *)

Lemma bind_run {A B} (m : M A) (k : A -> M B) (w : World) :
  bind m k w = k (m w).1 (m w).2.
Proof. unfold bind. destruct (m w); reflexivity. Qed.

Lemma bind_ext {A B} (m : M A) (k1 k2 : A -> M B) (w : World) :
  (forall a w', k1 a w' = k2 a w') -> bind m k1 w = bind m k2 w.
Proof. intros Hk. rewrite !bind_run. apply Hk. Qed.

Lemma requests_app (w1 w2 : World) : requests (w1 ++ w2) = (requests w1 + requests w2)%nat.
Proof. unfold requests. rewrite List.filter_app, length_app. reflexivity. Qed.

(** ** Go strings *)

Lemma append_cons (c : ascii) (s t : string) : String c s +:+ t = String c (s +:+ t).
Proof. reflexivity. Qed.

Lemma append_empty_l (s : string) : "" +:+ s = s.
Proof. reflexivity. Qed.

Lemma append_empty_r (s : string) : s +:+ "" = s.
Proof. induction s as [|c s IH]; [reflexivity|]. rewrite append_cons, IH. reflexivity. Qed.

Lemma append_assoc (a b c : string) : (a +:+ b) +:+ c = a +:+ b +:+ c.
Proof. induction a as [|x a IH]; [reflexivity|]. rewrite !append_cons, IH. reflexivity. Qed.

Lemma len_append (a b : string) : GoString.len (a +:+ b) = (GoString.len a + GoString.len b)%nat.
Proof.
  unfold GoString.len. induction a as [|x a IH]; [reflexivity|].
  rewrite append_cons. simpl. rewrite IH. reflexivity.
Qed.

Lemma drop_append (a b : string) : GoString.drop (GoString.len a) (a +:+ b) = b.
Proof. induction a as [|x a IH]; [reflexivity|]. rewrite append_cons. exact IH. Qed.

Lemma take_append (a b : string) : GoString.take (GoString.len a) (a +:+ b) = a.
Proof.
  induction a as [|x a IH]; [reflexivity|].
  rewrite append_cons. simpl. rewrite IH. reflexivity.
Qed.

Lemma HasSuffix_append (a suffix : string) : GoString.HasSuffix (a +:+ suffix) suffix = true.
Proof.
  unfold GoString.HasSuffix. rewrite len_append.
  replace (GoString.len a + GoString.len suffix - GoString.len suffix)%nat
    with (GoString.len a) by lia.
  rewrite drop_append, bool_decide_eq_true_2 by reflexivity.
  rewrite andb_true_r. apply Nat.leb_le. lia.
Qed.

Lemma TrimSuffix_append (a suffix : string) : GoString.TrimSuffix (a +:+ suffix) suffix = a.
Proof.
  unfold GoString.TrimSuffix. rewrite HasSuffix_append, len_append.
  replace (GoString.len a + GoString.len suffix - GoString.len suffix)%nat
    with (GoString.len a) by lia.
  apply take_append.
Qed.

Lemma all_chars_append (P : ascii -> bool) (a b : string) :
  all_chars P (a +:+ b) = all_chars P a && all_chars P b.
Proof.
  induction a as [|x a IH]; [reflexivity|].
  rewrite append_cons. simpl. rewrite IH, andb_assoc. reflexivity.
Qed.

Lemma all_chars_impl (P Q : ascii -> bool) (s : string) :
  (forall c, P c = true -> Q c = true) -> all_chars P s = true -> all_chars Q s = true.
Proof.
  intros HPQ. induction s as [|c s IH]; [reflexivity|]. simpl.
  intros [Hc Hs]%andb_true_iff. rewrite (HPQ c Hc), (IH Hs). reflexivity.
Qed.

Lemma list_ascii_append (a b : string) :
  list_ascii_of_string (a +:+ b) = list_ascii_of_string a ++ list_ascii_of_string b.
Proof.
  induction a as [|x a IH]; [reflexivity|].
  rewrite append_cons. simpl. rewrite IH. reflexivity.
Qed.

Lemma existsb_slash (s : string) :
  existsb (fun d => bool_decide (d = "/"%char)) (list_ascii_of_string s)
  = negb (all_chars (fun c => negb (is_char "/" c)) s).
Proof.
  induction s as [|c s IH]; [reflexivity|]. simpl. rewrite IH.
  unfold is_char. destruct (bool_decide (c = "/"%char)); reflexivity.
Qed.

(** The last element of [dir/rest] is [rest] when [rest] has no separator. *)
Lemma last_element_join (dir rest : string) :
  all_chars (fun c => negb (is_char "/" c)) rest = true ->
  GoString.last_element (dir +:+ "/" +:+ rest) = rest.
Proof.
  intros Hrest. induction dir as [|c dir IH].
  - rewrite append_empty_l. change ("/" +:+ rest) with (String "/" rest).
    simpl. rewrite existsb_slash, Hrest. reflexivity.
  - rewrite append_cons. simpl GoString.last_element.
    rewrite existsb_slash, all_chars_append.
    change ("/" +:+ rest) with (String "/" rest). simpl all_chars.
    rewrite andb_false_r. simpl. exact IH.
Qed.

Lemma strip_trailing_slashes_rev_head (c : ascii) (l : list ascii) :
  c <> "/"%char -> GoString.strip_trailing_slashes_rev (c :: l) = c :: l.
Proof. intros Hc. simpl. rewrite bool_decide_eq_false_2 by exact Hc. reflexivity. Qed.

(** A path that does not end with a separator has no trailing separator to
    strip. *)
Lemma strip_trailing_slashes_last (s : string) (c : ascii) :
  c <> "/"%char ->
  GoString.strip_trailing_slashes (s +:+ String c "") = s +:+ String c "".
Proof.
  intros Hc. unfold GoString.strip_trailing_slashes.
  rewrite list_ascii_append.
  change (list_ascii_of_string (String c "")) with [c].
  replace (rev (list_ascii_of_string s ++ [c])) with (c :: rev (list_ascii_of_string s))
    by (rewrite rev_app_distr; reflexivity).
  rewrite strip_trailing_slashes_rev_head by exact Hc.
  change (c :: rev (list_ascii_of_string s))
    with ([c] ++ rev (list_ascii_of_string s)).
  rewrite rev_app_distr, rev_involutive. simpl rev.
  rewrite <- (string_of_list_ascii_of_string (s +:+ String c "")).
  rewrite list_ascii_append. reflexivity.
Qed.

(** [filepath.Base] of [dir/stem.json] is [stem.json] when the stem has no
    separator. *)
Lemma Base_json (dir stem : string) :
  all_chars (fun c => negb (is_char "/" c)) stem = true ->
  GoString.Base (dir +:+ "/" +:+ stem +:+ ".json") = stem +:+ ".json".
Proof.
  intros Hstem. unfold GoString.Base.
  rewrite bool_decide_eq_false_2.
  2:{ destruct dir; discriminate. }
  replace (dir +:+ "/" +:+ stem +:+ ".json")
    with ((dir +:+ "/" +:+ stem +:+ ".jso") +:+ String "n" "").
  2:{ rewrite !append_assoc. reflexivity. }
  rewrite strip_trailing_slashes_last by discriminate.
  replace ((dir +:+ "/" +:+ stem +:+ ".jso") +:+ String "n" "")
    with (dir +:+ "/" +:+ stem +:+ ".json").
  2:{ rewrite !append_assoc. reflexivity. }
  rewrite last_element_join.
  2:{ rewrite all_chars_append, Hstem. reflexivity. }
  rewrite bool_decide_eq_false_2; [reflexivity|].
  destruct stem; discriminate.
Qed.

(** ** The artifact index *)

Section ArtifactIndex.

Import ArtifactPaths.

(** A name that is in the index keeps its path whatever is visited
    later. *)
Lemma visit_keeps (m : gmap string string) (path name p : string) :
  m !! name = Some p -> visit m path !! name = Some p.
Proof.
  intros Hm. unfold visit.
  destruct (GoString.HasSuffix path ".json"); [|exact Hm].
  destruct (m !! sanitized path) eqn:Hs; [exact Hm|].
  rewrite lookup_insert_ne; [exact Hm|].
  intros Heq. rewrite Heq, Hm in Hs. discriminate.
Qed.

Lemma walk_keeps (entries : list WalkEntry) (m : gmap string string) (name p : string) :
  m !! name = Some p -> (walk entries m).1 !! name = Some p.
Proof.
  revert m. induction entries as [|[path [err|]] rest IH]; intros m Hm; simpl.
  - exact Hm.
  - exact Hm.
  - apply IH, visit_keeps, Hm.
Qed.

(** Visits of files with other names leave a name out of the index. *)
Lemma walk_others (entries : list WalkEntry) (m : gmap string string) (name : string) :
  m !! name = None ->
  Forall (fun e => GoString.HasSuffix e.1 ".json" = true -> sanitized e.1 <> name) entries ->
  (walk entries m).1 !! name = None.
Proof.
  revert m. induction entries as [|[path [err|]] rest IH]; intros m Hm Hall; simpl.
  - exact Hm.
  - exact Hm.
  - apply IH; [|by inversion Hall].
    unfold visit. destruct (GoString.HasSuffix path ".json") eqn:Hj; [|exact Hm].
    destruct (m !! sanitized path); [exact Hm|].
    rewrite lookup_insert_ne; [exact Hm|].
    inversion Hall as [|? ? Hhd ?]; subst. apply Hhd, Hj.
Qed.

Lemma walk_app (entries1 entries2 : list WalkEntry) (m : gmap string string) :
  Forall (fun e => e.2 = None) entries1 ->
  walk (entries1 ++ entries2) m = walk entries2 (walk entries1 m).1.
Proof.
  revert m. induction entries1 as [|[path err] rest IH]; intros m Hall; simpl.
  - reflexivity.
  - inversion Hall as [|? ? Hhd Htl]; subst. simpl in Hhd. subst err.
    apply IH, Htl.
Qed.

(** What the code does when artifacts share a name: the index holds the
    path of the first one met in the walk. *)
Lemma getContractArtifactPaths_first_wins
    (before after : list WalkEntry) (path : string) :
  Forall (fun e => e.2 = None) before ->
  Forall (fun e => GoString.HasSuffix e.1 ".json" = true -> sanitized e.1 <> sanitized path)
    before ->
  GoString.HasSuffix path ".json" = true ->
  (getContractArtifactPaths (before ++ (path, None) :: after)).1 !! sanitized path
  = Some path.
Proof.
  intros Hok Hother Hjson. unfold getContractArtifactPaths.
  rewrite walk_app by exact Hok. simpl.
  apply walk_keeps. unfold visit. rewrite Hjson.
  rewrite (walk_others before ∅ (sanitized path)) by (done || apply lookup_empty).
  apply lookup_insert_eq.
Qed.

(** Once a walk without error has visited the artifact [path], the index
    has an entry for its name: the entry it had before the visit, or
    [path] when it had none. *)
Lemma getContractArtifactPaths_visited
    (before after : list WalkEntry) (path : string) :
  Forall (fun e => e.2 = None) before ->
  GoString.HasSuffix path ".json" = true ->
  (getContractArtifactPaths (before ++ (path, None) :: after)).1 !! sanitized path
  = Some (default path ((getContractArtifactPaths before).1 !! sanitized path)).
Proof.
  intros Hok Hjson. unfold getContractArtifactPaths.
  rewrite walk_app by exact Hok. simpl.
  apply walk_keeps. unfold visit. rewrite Hjson.
  destruct ((walk before ∅).1 !! sanitized path) as [held|] eqn:Hheld.
  - exact Hheld.
  - apply lookup_insert_eq.
Qed.

End ArtifactIndex.

(** C1 (the code keeps the first path, not the last): two artifacts of one
    contract compiled with two compiler versions have the same sanitized
    name, the walk meets [Foo.0.8.15.json] before [Foo.0.8.19.json], and the
    index built by [getContractArtifactPaths] holds the path met first. *)
Theorem getContractArtifactPaths_collision_keeps_first :
  let first := "out/Foo.sol/Foo.0.8.15.json" in
  let last := "out/Foo.sol/Foo.0.8.19.json" in
  let result := getContractArtifactPaths [(first, None); (last, None)] in
  ArtifactPaths.sanitized first = "Foo" /\
  ArtifactPaths.sanitized last = "Foo" /\
  result.2 = None /\
  result.1 !! "Foo" = Some first /\
  result.1 !! "Foo" <> Some last.
Proof. vm_compute. repeat split; congruence. Qed.

(** ** The retry loop of [fetchEtherscanAbi] *)

Section RetryLoop.

Context {SL : Type} (env : Env SL).
Variables (url : string) (maxRetries retryDelay : Z).

Lemma requests_retry_trace (k : nat) : requests (retry_trace url retryDelay k) = k.
Proof.
  induction k as [|k IH]; [reflexivity|].
  unfold retry_trace in *. simpl replicate. simpl concat.
  change (?a :: ?b :: ?c :: ?l) with ([a; b; c] ++ l).
  rewrite requests_app, IH. reflexivity.
Qed.

Lemma retry_trace_S (w : World) (k : nat) :
  (w ++ [EvHttpGet url; EvLog (LogRateLimit retryDelay); EvSleep retryDelay])
    ++ retry_trace url retryDelay k
  = w ++ retry_trace url retryDelay (S k).
Proof. rewrite <- app_assoc. reflexivity. Qed.

Lemma requests_request (w : World) : requests (w ++ [EvHttpGet url]) = S (requests w).
Proof. rewrite requests_app. change (requests [EvHttpGet url]) with 1%nat. lia. Qed.

Lemma attempt_rate_limited (w : World) :
  rate_limited env (http env (w ++ [EvHttpGet url]) url) ->
  fetchEtherscanAbi_attempt env url retryDelay w
  = (Continue, w ++ [EvHttpGet url; EvLog (LogRateLimit retryDelay); EvSleep retryDelay]).
Proof.
  intros (r & (body & Hanswer & Hparse) & Hmsg & Hres).
  unfold fetchEtherscanAbi_attempt, fetchEtherscanData, bind, emit, ask, ret.
  rewrite Hanswer, Hparse, Hmsg, Hres. simpl.
  rewrite <- !app_assoc. reflexivity.
Qed.

Lemma attempt_success (w : World) (r : etherscanApiResponse) :
  envelope env (http env (w ++ [EvHttpGet url]) url) r ->
  api_Message r = "OK" ->
  fetchEtherscanAbi_attempt env url retryDelay w
  = (Return (api_Result r, None), w ++ [EvHttpGet url]).
Proof.
  intros (body & Hanswer & Hparse) Hmsg.
  unfold fetchEtherscanAbi_attempt, fetchEtherscanData, bind, emit, ask, ret.
  rewrite Hanswer, Hparse, Hmsg. reflexivity.
Qed.

Lemma attempt_terminal (w : World) :
  terminal_answer env (http env (w ++ [EvHttpGet url]) url) ->
  exists err logs,
    fetchEtherscanAbi_attempt env url retryDelay w
    = (Return ("", Some err), w ++ EvHttpGet url :: logs)
    /\ Forall (fun e => exists msg, e = EvLog msg) logs.
Proof.
  intros Hterminal.
  unfold fetchEtherscanAbi_attempt, fetchEtherscanData, bind, emit, ask, ret.
  inversion Hterminal as [err Ha|err Ha|body r err Hparse Ha|body r Hparse Hmsg Hrate Ha].
  - exists err, []. split; [reflexivity|constructor].
  - exists err, []. split; [reflexivity|constructor].
  - rewrite Hparse. exists err, [EvLog (LogUnmarshalApiResponseFailed err)].
    rewrite <- app_assoc. split; [reflexivity|]. repeat constructor. eauto.
  - rewrite Hparse.
    destruct (bool_decide (api_Message r = "NOTOK")
              && bool_decide (api_Result r = "Max rate limit reached")) eqn:Hcond.
    + exfalso. apply Hrate. apply andb_true_iff in Hcond as [H1 H2].
      split; eapply bool_decide_eq_true_1; eassumption.
    + rewrite bool_decide_eq_false_2 by exact Hmsg. simpl.
      eexists _, []. split; [reflexivity|constructor].
Qed.

(** [k] rate-limited answers use up [k] turns of the loop. *)
Lemma loop_rate_limited (k remaining : nat) (w : World) :
  (forall w', (requests w < requests w' <= requests w + k)%nat ->
              rate_limited env (http env w' url)) ->
  fetchEtherscanAbi_loop env url maxRetries retryDelay (k + remaining) w
  = fetchEtherscanAbi_loop env url maxRetries retryDelay remaining
      (w ++ retry_trace url retryDelay k).
Proof.
  revert w. induction k as [|k IH]; intros w Hlimited.
  - unfold retry_trace. simpl. rewrite app_nil_r. reflexivity.
  - change (S k + remaining)%nat with (S (k + remaining)).
    simpl fetchEtherscanAbi_loop. unfold bind at 1.
    rewrite attempt_rate_limited
      by (apply Hlimited; rewrite requests_request; lia).
    rewrite IH; [rewrite retry_trace_S; reflexivity|].
    intros w' Hw'. apply Hlimited.
    rewrite requests_app in Hw'.
    change (requests [_; _; _]) with 1%nat in Hw'. lia.
Qed.

End RetryLoop.

Lemma retryDelay_of_seconds (apiRetryDelay : Z) :
  -9223372036 <= apiRetryDelay <= 9223372036 ->
  retryDelay_of apiRetryDelay = apiRetryDelay * Second.
Proof.
  intros Hrange. unfold retryDelay_of, wrap64, Second.
  rewrite Z.mod_small by lia. lia.
Qed.

(** A duration is a 64-bit integer. *)
Lemma retryDelay_of_int64 (apiRetryDelay : Z) :
  - 2 ^ 63 <= retryDelay_of apiRetryDelay < 2 ^ 63.
Proof.
  unfold retryDelay_of, wrap64.
  pose proof (Z.mod_pos_bound (apiRetryDelay * Second + 2 ^ 63) (2 ^ 64)). lia.
Qed.

(** The delay is the number of seconds asked for exactly when the count
    of nanoseconds fits in 64 bits. *)
Lemma retryDelay_of_exact (apiRetryDelay : Z) :
  retryDelay_of apiRetryDelay = apiRetryDelay * Second
  <-> -9223372036 <= apiRetryDelay <= 9223372036.
Proof.
  split; [|apply retryDelay_of_seconds].
  intros Hexact. pose proof (retryDelay_of_int64 apiRetryDelay) as Hrange.
  rewrite Hexact in Hrange. unfold Second in Hrange. lia.
Qed.

Lemma sleeps_app (w1 w2 : World) : sleeps (w1 ++ w2) = (sleeps w1 + sleeps w2)%nat.
Proof. unfold sleeps. rewrite List.filter_app, length_app. reflexivity. Qed.

Lemma sleeps_retry_trace (url : string) (retryDelay : Z) (k : nat) :
  sleeps (retry_trace url retryDelay k) = k.
Proof.
  induction k as [|k IH]; [reflexivity|].
  unfold retry_trace in *. simpl replicate. simpl concat.
  change (?a :: ?b :: ?c :: ?l) with ([a; b; c] ++ l).
  rewrite sleeps_app, IH. reflexivity.
Qed.

(** The last action of [k > 0] rate-limited attempts is a sleep. *)
Lemma last_retry_trace (url : string) (retryDelay : Z) (w : World) (k : nat) :
  last (w ++ retry_trace url retryDelay (S k)) = Some (EvSleep retryDelay).
Proof.
  revert w. induction k as [|k IH]; intros w.
  - unfold retry_trace. simpl.
    change [EvHttpGet url; EvLog (LogRateLimit retryDelay); EvSleep retryDelay]
      with ([EvHttpGet url; EvLog (LogRateLimit retryDelay)] ++ [EvSleep retryDelay]).
    rewrite app_assoc. apply last_snoc.
  - rewrite <- retry_trace_S. apply IH.
Qed.

(** C2, as the code has it: when every answer to the ABI request is the
    rate-limit condition and [maxRetries > 0], [fetchEtherscanAbi] issues
    exactly [maxRetries] requests and returns the error
    [Failed to fetch ABI after N retries] with [N = maxRetries].  Each
    request, the last one included, is followed by the wait notice and by
    a sleep: there are [maxRetries] sleeps, and the run ends on one.  The
    time slept is [time.Duration(retryDelaySeconds) * time.Second] as
    64-bit arithmetic gives it, which is [retryDelaySeconds] seconds if and
    only if [-9223372036 <= retryDelaySeconds <= 9223372036]. *)
Theorem fetchEtherscanAbi_retry_bound {SL} (env : Env SL) (url : string)
    (maxRetries retryDelaySeconds : Z) (w : World) :
  0 < maxRetries ->
  (forall w', rate_limited env (http env w' url)) ->
  let retryDelay := retryDelay_of retryDelaySeconds in
  let w' := w ++ retry_trace url retryDelay (Z.to_nat maxRetries) in
  fetchEtherscanAbi env url maxRetries retryDelaySeconds w
  = ("", Some (Errorf ("Failed to fetch ABI after " +:+ pretty maxRetries +:+ " retries")), w')
  /\ Z.of_nat (requests w') = Z.of_nat (requests w) + maxRetries
  /\ Z.of_nat (sleeps w') = Z.of_nat (sleeps w) + maxRetries
  /\ last w' = Some (EvSleep retryDelay)
  /\ (retryDelay = retryDelaySeconds * Second
      <-> -9223372036 <= retryDelaySeconds <= 9223372036).
Proof.
  intros Hpos Hlimited retryDelay w'. split; [|split; [|split; [|split]]].
  - unfold fetchEtherscanAbi.
    rewrite <- (Nat.add_0_r (Z.to_nat maxRetries)) at 1.
    rewrite loop_rate_limited by (intros; apply Hlimited).
    reflexivity.
  - subst w'. rewrite requests_app, requests_retry_trace. lia.
  - subst w'. rewrite sleeps_app, sleeps_retry_trace. lia.
  - subst w'. destruct (Z.to_nat maxRetries) as [|k] eqn:Hk; [lia|].
    apply last_retry_trace.
  - apply retryDelay_of_exact.
Qed.

(** C6 (retry recovery): if the first [k < maxRetries] answers are the
    rate-limit condition and answer [k + 1] is a status envelope with
    message [OK], [fetchEtherscanAbi] returns the result field of that
    envelope and no error. *)
Theorem fetchEtherscanAbi_retry_recovery {SL} (env : Env SL) (url : string)
    (maxRetries retryDelaySeconds : Z) (w : World) (k : nat) (r : etherscanApiResponse) :
  Z.of_nat k < maxRetries ->
  (forall w', (requests w < requests w' <= requests w + k)%nat ->
              rate_limited env (http env w' url)) ->
  (forall w', requests w' = (requests w + k + 1)%nat -> envelope env (http env w' url) r) ->
  api_Message r = "OK" ->
  fetchEtherscanAbi env url maxRetries retryDelaySeconds w
  = (api_Result r, None,
     w ++ retry_trace url (retryDelay_of retryDelaySeconds) k ++ [EvHttpGet url]).
Proof.
  intros Hk Hlimited Hsuccess Hok. unfold fetchEtherscanAbi.
  replace (Z.to_nat maxRetries) with (k + S (Z.to_nat maxRetries - k - 1))%nat by lia.
  rewrite loop_rate_limited by exact Hlimited.
  simpl fetchEtherscanAbi_loop. unfold bind at 1.
  rewrite (attempt_success env url _ _ r); [rewrite <- app_assoc; reflexivity| |exact Hok].
  apply Hsuccess. rewrite requests_request, requests_app, requests_retry_trace. lia.
Qed.

(** C7 (no retry of other failures): if the first [k < maxRetries] answers
    are the rate-limit condition and answer [k + 1] is a transport failure,
    a body that does not parse as the status envelope, or an envelope that
    is neither the rate-limit condition nor [OK], then [fetchEtherscanAbi]
    returns an error on that attempt: request [k + 1] is the last one, and
    nothing but a log line follows it. *)
Theorem fetchEtherscanAbi_terminal_failure {SL} (env : Env SL) (url : string)
    (maxRetries retryDelaySeconds : Z) (w : World) (k : nat) :
  Z.of_nat k < maxRetries ->
  (forall w', (requests w < requests w' <= requests w + k)%nat ->
              rate_limited env (http env w' url)) ->
  (forall w', requests w' = (requests w + k + 1)%nat -> terminal_answer env (http env w' url)) ->
  exists err logs,
    fetchEtherscanAbi env url maxRetries retryDelaySeconds w
    = ("", Some err,
       w ++ retry_trace url (retryDelay_of retryDelaySeconds) k ++ EvHttpGet url :: logs)
    /\ Forall (fun e => exists msg, e = EvLog msg) logs
    /\ requests (w ++ retry_trace url (retryDelay_of retryDelaySeconds) k
                   ++ EvHttpGet url :: logs) = (requests w + k + 1)%nat.
Proof.
  intros Hk Hlimited Hterminal. unfold fetchEtherscanAbi.
  replace (Z.to_nat maxRetries) with (k + S (Z.to_nat maxRetries - k - 1))%nat by lia.
  rewrite loop_rate_limited by exact Hlimited.
  simpl fetchEtherscanAbi_loop. unfold bind at 1.
  destruct (attempt_terminal env url (retryDelay_of retryDelaySeconds)
              (w ++ retry_trace url (retryDelay_of retryDelaySeconds) k))
    as (err & logs & Hrun & Hlogs).
  { apply Hterminal. rewrite requests_request, requests_app, requests_retry_trace. lia. }
  rewrite Hrun. exists err, logs. rewrite <- app_assoc. split; [reflexivity|].
  split; [exact Hlogs|].
  rewrite !requests_app, requests_retry_trace.
  change (EvHttpGet url :: logs) with ([EvHttpGet url] ++ logs).
  rewrite requests_app. change (requests [EvHttpGet url]) with 1%nat.
  assert (requests logs = 0%nat) as ->; [|lia].
  clear -Hlogs. induction Hlogs as [|e l [msg ->] _ IH]; [reflexivity|exact IH].
Qed.

(** ** Storage layout and source map *)

(** C4, as the code has it: [canonicalizeStorageLayout] returns the raw
    deployed-bytecode source map when the contract name is in the
    source-maps set and the empty string when it is not, provided the
    canonical layout marshals to JSON; when marshaling fails the source map
    returned is empty, whether or not the name is in the set. *)
Theorem canonicalizeStorageLayout_source_map {SL} (env : Env SL)
    (forgeArtifact : Artifact SL) (monorepoBasePath : string)
    (sourceMapsSet : gset string) (contractName : string) :
  let canonical :=
    ast_CanonicalizeASTIDs env (art_StorageLayout forgeArtifact) monorepoBasePath in
  (canonicalizeStorageLayout env forgeArtifact monorepoBasePath sourceMapsSet contractName).1.1
  = match (json_Marshal_StorageLayout env canonical).2 with
    | None =>
        if bool_decide (contractName ∈ sourceMapsSet)
        then art_DeployedBytecode_SourceMap forgeArtifact
        else ""
    | Some _ => ""
    end.
Proof.
  unfold canonicalizeStorageLayout. cbv zeta.
  destruct (json_Marshal_StorageLayout env _) as [json [err|]]; reflexivity.
Qed.


(** ** The generators *)

Section Runs.

Context {SL : Type} `{!Inhabited SL} (env : Env SL).
Variable mkTempArtifactsDir : World -> string * option error.

Lemma removeTempArtifactsDir_run (dir : string) (w : World) :
  exists msg, removeTempArtifactsDir env dir w = (tt, w ++ [EvRemoveAll dir; EvLog msg]).
Proof.
  unfold removeTempArtifactsDir, bind, emit, ask.
  destruct (os_RemoveAll env _ dir) as [err|]; eexists; rewrite <- app_assoc; reflexivity.
Qed.

Lemma with_defer_remove {A} (body : M A) (dir : string) (w w' : World) (a : A) :
  body w = (a, w') ->
  exists msg,
    with_defer body (removeTempArtifactsDir env dir) w
    = (a, w' ++ [EvRemoveAll dir; EvLog msg]).
Proof.
  intros Hbody. destruct (removeTempArtifactsDir_run dir w') as [msg Hmsg].
  exists msg. unfold with_defer, bind, ret. rewrite Hbody, Hmsg. reflexivity.
Qed.

(** *** The local generator *)

Section Local.

Variables contractListFilePath sourceMapsListStr forgeArtifactsPath : string.
Variables goPackageName monorepoBasePath metadataOutputDir : string.

Let run_contract := genLocalBindings_contract env forgeArtifactsPath goPackageName
                      monorepoBasePath metadataOutputDir.
Let run_loop := genLocalBindings_loop env forgeArtifactsPath goPackageName
                  monorepoBasePath metadataOutputDir.


(** The start of a run up to the loop over the contracts. *)
Lemma genLocalBindings_run (w : World) (data : contractsData) :
  let w1 := w ++ [EvReadJSONFile contractListFilePath] in
  let w2 := w1 ++ [EvMkTempArtifactsDir] in
  let w3 := w2 ++ [EvWalk forgeArtifactsPath] in
  let dir := (mkTempArtifactsDir w2).1 in
  let index := getContractArtifactPaths (filepath_Walk env w3 forgeArtifactsPath) in
  readJSONFile env w1 contractListFilePath = (data, None) ->
  cd_Local data <> [] ->
  index.2 = None ->
  genLocalBindings env mkTempArtifactsDir contractListFilePath sourceMapsListStr
    forgeArtifactsPath goPackageName monorepoBasePath metadataOutputDir w
  = with_defer
      (run_loop dir index.1 (sourceMapsSet_of sourceMapsListStr) (cd_Local data))
      (removeTempArtifactsDir env dir) w3.
Proof.
  intros w1 w2 w3 dir index Hread Hnonempty Hwalk.
  unfold genLocalBindings, readLocalContractList.
  unfold bind at 1. unfold bind at 1. unfold emit at 1. fold w1.
  unfold bind at 1. unfold ask at 1. rewrite Hread. unfold ret at 1.
  destruct (cd_Local data) as [|c cs] eqn:Hlist; [done|].
  rewrite bool_decide_eq_false_2 by (simpl; lia).
  unfold bind at 1. unfold emit at 1. fold w2.
  unfold bind at 1. unfold ask at 1.
  subst dir. destruct (mkTempArtifactsDir w2) as [tmp tmperr]. simpl fst.
  unfold with_defer. unfold bind at 1. unfold bind at 3.
  unfold bind at 1. unfold getContractArtifactPaths_at.
  unfold bind at 1. unfold emit at 1. fold w3.
  unfold bind at 1. unfold ask at 1. unfold ret at 1. fold index.
  destruct index as [paths walkerr]. simpl in Hwalk. subst walkerr.
  reflexivity.
Qed.

End Local.

End Runs.

Section EtherscanRuns.

Context {SL : Type} (env : Env SL).
Variable mkTempArtifactsDir : World -> string * option error.
Variables contractListFilePath sourceMapsListStr etherscanApiKey : string.
Variables goPackageName metadataOutputDir : string.
Variables apiMaxRetries apiRetryDelay : Z.

Let run_contract := genEtherscanBindings_contract env etherscanApiKey goPackageName
                      metadataOutputDir apiMaxRetries apiRetryDelay.
Let run_loop := genEtherscanBindings_loop env etherscanApiKey goPackageName
                  metadataOutputDir apiMaxRetries apiRetryDelay.

Lemma genEtherscanBindings_loop_fail_fast
    (dir : string) (before after : list etherscanContract) (failing : etherscanContract)
    (err : error) (w w1 w2 : World) :
  run_loop dir before w = (None, w1) ->
  run_contract dir failing w1 = (Some err, w2) ->
  run_loop dir (before ++ failing :: after) w = (Some err, w2).
Proof.
  subst run_loop run_contract. revert w.
  induction before as [|c before IH]; intros w Hbefore Hfail; simpl in *.
  - unfold ret in Hbefore. inversion Hbefore; subst w1.
    unfold bind. rewrite Hfail. reflexivity.
  - unfold bind in *.
    destruct (genEtherscanBindings_contract _ _ _ _ _ _ _ c w) as [[e|] wc].
    + inversion Hbefore.
    + apply IH; assumption.
Qed.

Lemma genEtherscanBindings_run (w : World) (data : contractsData) :
  let w1 := w ++ [EvReadJSONFile contractListFilePath] in
  let w2 := w1 ++ [EvMkTempArtifactsDir] in
  let dir := (mkTempArtifactsDir w2).1 in
  readJSONFile env w1 contractListFilePath = (data, None) ->
  cd_Etherscan data <> [] ->
  genEtherscanBindings env mkTempArtifactsDir contractListFilePath sourceMapsListStr
    etherscanApiKey goPackageName metadataOutputDir apiMaxRetries apiRetryDelay w
  = with_defer (run_loop dir (cd_Etherscan data)) (removeTempArtifactsDir env dir) w2.
Proof.
  intros w1 w2 dir Hread Hnonempty.
  unfold genEtherscanBindings, readEtherscanContractsList.
  unfold bind at 1. unfold bind at 1. unfold emit at 1. fold w1.
  unfold bind at 1. unfold ask at 1. rewrite Hread. unfold ret at 1.
  destruct (cd_Etherscan data) as [|c cs] eqn:Hlist; [done|].
  rewrite bool_decide_eq_false_2 by (simpl; lia).
  unfold bind at 1. unfold emit at 1. fold w2.
  unfold bind at 1. unfold ask at 1.
  subst dir. destruct (mkTempArtifactsDir w2) as [tmp tmperr]. reflexivity.
Qed.

End EtherscanRuns.



Lemma mentions_middle (pre part post : string) : mentions part (pre +:+ part +:+ post).
Proof. exists pre, post. reflexivity. Qed.

Lemma mentions_end (pre part : string) : mentions part (pre +:+ part).
Proof.
  exists pre, "". f_equal. induction part as [|c part IH]; [reflexivity|].
  change (String c part = String c (part +:+ "")). f_equal. exact IH.
Qed.

(** C8 (empty manifest): when no contract is parsed from the manifest,
    [genLocalBindings] and [genEtherscanBindings] return an error whose
    message contains the contract-list path, and reading the manifest is
    the only thing the run has done. *)
Theorem gen_empty_manifest {SL} `{!Inhabited SL} (env : Env SL)
    (mkTempArtifactsDir : World -> string * option error)
    (contractListFilePath sourceMapsListStr goPackageName metadataOutputDir : string)
    (w : World) (data : contractsData) (readErr : option error) :
  let w1 := w ++ [EvReadJSONFile contractListFilePath] in
  readJSONFile env w1 contractListFilePath = (data, readErr) ->
  (cd_Local data = [] ->
   forall forgeArtifactsPath monorepoBasePath,
   exists err,
     genLocalBindings env mkTempArtifactsDir contractListFilePath sourceMapsListStr
       forgeArtifactsPath goPackageName monorepoBasePath metadataOutputDir w
     = (Some err, w1)
     /\ mentions contractListFilePath (Error err))
  /\
  (cd_Etherscan data = [] ->
   forall etherscanApiKey apiMaxRetries apiRetryDelay,
   exists err,
     genEtherscanBindings env mkTempArtifactsDir contractListFilePath sourceMapsListStr
       etherscanApiKey goPackageName metadataOutputDir apiMaxRetries apiRetryDelay w
     = (Some err, w1)
     /\ mentions contractListFilePath (Error err)).
Proof.
  intros w1 Hread. split.
  - intros Hempty forgeArtifactsPath monorepoBasePath.
    unfold genLocalBindings, readLocalContractList, bind, emit, ask, ret.
    fold w1. rewrite Hread, Hempty.
    destruct readErr as [e|]; eexists; (split; [reflexivity|]); simpl.
    + apply mentions_middle.
    + apply mentions_end.
  - intros Hempty etherscanApiKey apiMaxRetries apiRetryDelay.
    unfold genEtherscanBindings, readEtherscanContractsList, bind, emit, ask, ret.
    fold w1. rewrite Hread, Hempty.
    destruct readErr as [e|]; eexists; (split; [reflexivity|]); simpl.
    + apply mentions_middle.
    + apply mentions_end.
Qed.


(** ** The trace of a run only grows *)

Lemma grows_ret {A} (a : A) : grows (ret a).
Proof. intros w. exists []. symmetry. apply app_nil_r. Qed.

Lemma grows_ask {A} (oracle : World -> A) : grows (ask oracle).
Proof. intros w. exists []. symmetry. apply app_nil_r. Qed.

Lemma grows_emit (e : Event) : grows (emit e).
Proof. intros w. exists [e]. reflexivity. Qed.

Lemma grows_bind {A B} (m : M A) (k : A -> M B) :
  grows m -> (forall a, grows (k a)) -> grows (bind m k).
Proof.
  intros Hm Hk w. rewrite bind_run.
  destruct (Hm w) as [added1 H1]. destruct (Hk (m w).1 (m w).2) as [added2 H2].
  exists (added1 ++ added2). rewrite H2, H1. symmetry. apply app_assoc.
Qed.

Lemma grows_with_defer {A} (body : M A) (deferred : M unit) :
  grows body -> grows deferred -> grows (with_defer body deferred).
Proof.
  intros Hbody Hdeferred. unfold with_defer.
  apply grows_bind; [exact Hbody|]. intros a.
  apply grows_bind; [exact Hdeferred|]. intros _. apply grows_ret.
Qed.

Lemma begins_with_emit (e : Event) : begins_with e (emit e).
Proof. intros w. exists []. reflexivity. Qed.

Lemma begins_with_bind {A B} (e : Event) (m : M A) (k : A -> M B) :
  begins_with e m -> (forall a, grows (k a)) -> begins_with e (bind m k).
Proof.
  intros Hm Hk w. rewrite bind_run.
  destruct (Hm w) as [added1 H1]. destruct (Hk (m w).1 (m w).2) as [added2 H2].
  exists (added1 ++ added2). rewrite H2, H1, <- app_assoc. reflexivity.
Qed.

(** Break a computation into its steps; what remains are the calls of
    other functions. *)
Ltac grows_step :=
  match goal with
  | |- grows (ret _) => apply grows_ret
  | |- grows (ask _) => apply grows_ask
  | |- grows (emit _) => apply grows_emit
  | |- grows (with_defer _ _) => apply grows_with_defer
  | |- grows (bind _ _) => apply grows_bind; [|intros ?; cbv beta]
  | |- grows (match ?x with _ => _ end) => destruct x
  | |- grows (if ?b then _ else _) => destruct b
  end.

Ltac grows_steps := repeat grows_step.

Section Grows.

Context {SL : Type} `{!Inhabited SL} (env : Env SL).

Lemma removeTempArtifactsDir_grows (dir : string) :
  grows (removeTempArtifactsDir env dir).
Proof. unfold removeTempArtifactsDir. grows_steps. Qed.

Lemma readForgeArtifact_grows (forgeArtifactsPath contractName : string)
    (contractArtifactPaths : gmap string string) :
  grows (readForgeArtifact env forgeArtifactsPath contractName contractArtifactPaths).
Proof. unfold readForgeArtifact, ReadFile. grows_steps. Qed.

Lemma writeLocalContractMetadata_grows (contractMetaData : localContractMetadata)
    (metadataOutputDir contractName : string) :
  grows (writeLocalContractMetadata env contractMetaData metadataOutputDir contractName).
Proof. unfold writeLocalContractMetadata. grows_steps. Qed.

(** Processing a local contract begins with the log line that names it. *)
Lemma genLocalBindings_contract_begins
    (forgeArtifactsPath goPackageName monorepoBasePath metadataOutputDir : string)
    (tempArtifactsDir : string) (contractArtifactPaths : gmap string string)
    (sourceMapsSet : gset string) (contractName : string) :
  begins_with (EvLog (LogGeneratingLocal contractName))
    (genLocalBindings_contract env forgeArtifactsPath goPackageName monorepoBasePath
       metadataOutputDir tempArtifactsDir contractArtifactPaths sourceMapsSet contractName).
Proof.
  unfold genLocalBindings_contract.
  apply begins_with_bind; [apply begins_with_emit|]. intros _.
  apply grows_bind; [apply readForgeArtifact_grows|]. intros [forgeArtifact [err|]].
  - apply grows_ret.
  - apply grows_bind; [apply grows_emit|]. intros _.
    apply grows_bind; [apply grows_ask|]. intros [[abiFilePath bytecodeFilePath] [err|]].
    + apply grows_ret.
    + apply grows_bind; [apply grows_emit|]. intros _.
      apply grows_bind; [apply grows_ask|]. intros [err|].
      * apply grows_ret.
      * destruct (canonicalizeStorageLayout _ _ _ _ _) as [[sm sl] e].
        apply writeLocalContractMetadata_grows.
Qed.

Lemma begins_with_grows (e : Event) {A} (m : M A) : begins_with e m -> grows m.
Proof. intros Hm w. destruct (Hm w) as [added H]. exists (e :: added). exact H. Qed.

Lemma genLocalBindings_loop_grows
    (forgeArtifactsPath goPackageName monorepoBasePath metadataOutputDir : string)
    (tempArtifactsDir : string) (contractArtifactPaths : gmap string string)
    (sourceMapsSet : gset string) (contracts : list string) :
  grows (genLocalBindings_loop env forgeArtifactsPath goPackageName monorepoBasePath
           metadataOutputDir tempArtifactsDir contractArtifactPaths sourceMapsSet contracts).
Proof.
  induction contracts as [|c contracts IH]; simpl.
  - apply grows_ret.
  - apply grows_bind.
    + eapply begins_with_grows, genLocalBindings_contract_begins.
    + intros [err|]; [apply grows_ret|exact IH].
Qed.

(** A local run that reaches the loop begins it with the first contract of
    the manifest. *)
Lemma genLocalBindings_loop_begins
    (forgeArtifactsPath goPackageName monorepoBasePath metadataOutputDir : string)
    (tempArtifactsDir : string) (contractArtifactPaths : gmap string string)
    (sourceMapsSet : gset string) (contractName : string) (rest : list string) :
  begins_with (EvLog (LogGeneratingLocal contractName))
    (with_defer
       (genLocalBindings_loop env forgeArtifactsPath goPackageName monorepoBasePath
          metadataOutputDir tempArtifactsDir contractArtifactPaths sourceMapsSet
          (contractName :: rest))
       (removeTempArtifactsDir env tempArtifactsDir)).
Proof.
  unfold with_defer. apply begins_with_bind.
  - simpl. apply begins_with_bind; [apply genLocalBindings_contract_begins|].
    intros [err|]; [apply grows_ret|apply genLocalBindings_loop_grows].
  - intros r. apply grows_bind; [apply removeTempArtifactsDir_grows|].
    intros _. apply grows_ret.
Qed.

Lemma fetchEtherscanData_grows (url : string) : grows (fetchEtherscanData env url).
Proof. unfold fetchEtherscanData. grows_steps. Qed.

Lemma fetchEtherscanAbi_grows (url : string) (apiMaxRetries apiRetryDelay : Z) :
  grows (fetchEtherscanAbi env url apiMaxRetries apiRetryDelay).
Proof.
  unfold fetchEtherscanAbi. cbv zeta.
  induction (Z.to_nat apiMaxRetries) as [|remaining IH]; simpl.
  - apply grows_ret.
  - apply grows_bind.
    + unfold fetchEtherscanAbi_attempt.
      apply grows_bind; [apply fetchEtherscanData_grows|]. intros [body [err|]].
      * apply grows_ret.
      * destruct (json_Unmarshal_etherscanApiResponse env body) as [r [e|]];
          grows_steps.
    + intros [|r]; [exact IH|apply grows_ret].
Qed.

Lemma fetchEtherscanBytecode_grows (url : string) : grows (fetchEtherscanBytecode env url).
Proof.
  unfold fetchEtherscanBytecode.
  apply grows_bind; [apply fetchEtherscanData_grows|]. intros [body [err|]].
  - apply grows_ret.
  - destruct (json_Unmarshal_etherscanRpcApiResponse env body) as [r [e|]]; grows_steps.
Qed.

Lemma writeEtherscanContractMetadata_grows (contractMetaData : etherscanContractMetadata)
    (metadataOutputDir contractName : string) :
  grows (writeEtherscanContractMetadata env contractMetaData metadataOutputDir contractName).
Proof. unfold writeEtherscanContractMetadata. grows_steps. Qed.

(** Processing a remote contract begins with the log line that names it. *)
Lemma genEtherscanBindings_contract_begins
    (etherscanApiKey goPackageName metadataOutputDir : string)
    (apiMaxRetries apiRetryDelay : Z) (tempArtifactsDir : string)
    (contract : etherscanContract) :
  begins_with (EvLog (LogGeneratingEtherscan (ec_Name contract)))
    (genEtherscanBindings_contract env etherscanApiKey goPackageName metadataOutputDir
       apiMaxRetries apiRetryDelay tempArtifactsDir contract).
Proof.
  unfold genEtherscanBindings_contract.
  apply begins_with_bind; [apply begins_with_emit|]. intros _.
  apply grows_bind; [apply fetchEtherscanAbi_grows|]. intros [abi [err|]].
  - apply grows_ret.
  - apply grows_bind; [apply fetchEtherscanBytecode_grows|]. intros [bytecode [err|]].
    + apply grows_ret.
    + apply grows_bind; [apply grows_emit|]. intros _.
      apply grows_bind; [apply grows_ask|].
      intros [[abiFilePath bytecodeFilePath] [err|]].
      * apply grows_ret.
      * apply grows_bind; [apply grows_emit|]. intros _.
        apply grows_bind; [apply grows_ask|]. intros [err|].
        -- apply grows_ret.
        -- apply writeEtherscanContractMetadata_grows.
Qed.

Lemma genEtherscanBindings_loop_grows
    (etherscanApiKey goPackageName metadataOutputDir : string)
    (apiMaxRetries apiRetryDelay : Z) (tempArtifactsDir : string)
    (contracts : list etherscanContract) :
  grows (genEtherscanBindings_loop env etherscanApiKey goPackageName metadataOutputDir
           apiMaxRetries apiRetryDelay tempArtifactsDir contracts).
Proof.
  induction contracts as [|c contracts IH]; simpl.
  - apply grows_ret.
  - apply grows_bind.
    + eapply begins_with_grows, genEtherscanBindings_contract_begins.
    + intros [err|]; [apply grows_ret|exact IH].
Qed.

(** A remote run that reaches the loop begins it with the first contract
    of the manifest. *)
Lemma genEtherscanBindings_loop_begins
    (etherscanApiKey goPackageName metadataOutputDir : string)
    (apiMaxRetries apiRetryDelay : Z) (tempArtifactsDir : string)
    (contract : etherscanContract) (rest : list etherscanContract) :
  begins_with (EvLog (LogGeneratingEtherscan (ec_Name contract)))
    (with_defer
       (genEtherscanBindings_loop env etherscanApiKey goPackageName metadataOutputDir
          apiMaxRetries apiRetryDelay tempArtifactsDir (contract :: rest))
       (removeTempArtifactsDir env tempArtifactsDir)).
Proof.
  unfold with_defer. apply begins_with_bind.
  - simpl. apply begins_with_bind; [apply genEtherscanBindings_contract_begins|].
    intros [err|]; [apply grows_ret|apply genEtherscanBindings_loop_grows].
  - intros r. apply grows_bind; [apply removeTempArtifactsDir_grows|].
    intros _. apply grows_ret.
Qed.

End Grows.

(** C10 (the error of [mkTempArtifactsDir] is never read): a run of
    [genLocalBindings] or of [genEtherscanBindings] is the same run,
    result and actions, as with a [mkTempArtifactsDir] that returns the same
    directory name and no error.  And when [mkTempArtifactsDir] does return
    an error, with the directory name [dir], a run whose manifest gave at
    least one contract goes on to the loop over the contracts with [dir] as
    the temporary directory: right after the call (and the walk of the
    artifact directory, in a local run) comes the log line of the first
    contract of the manifest. *)
Theorem gen_ignores_mkTempArtifactsDir_error {SL} `{!Inhabited SL} (env : Env SL)
    (mkTempArtifactsDir : World -> string * option error)
    (contractListFilePath sourceMapsListStr goPackageName metadataOutputDir : string)
    (forgeArtifactsPath monorepoBasePath etherscanApiKey : string)
    (apiMaxRetries apiRetryDelay : Z) (w : World) :
  let succeeding := fun w => ((mkTempArtifactsDir w).1, None) in
  let w1 := w ++ [EvReadJSONFile contractListFilePath] in
  let w2 := w1 ++ [EvMkTempArtifactsDir] in
  let w3 := w2 ++ [EvWalk forgeArtifactsPath] in
  let local :=
    genLocalBindings env mkTempArtifactsDir contractListFilePath sourceMapsListStr
      forgeArtifactsPath goPackageName monorepoBasePath metadataOutputDir w in
  let etherscan :=
    genEtherscanBindings env mkTempArtifactsDir contractListFilePath sourceMapsListStr
      etherscanApiKey goPackageName metadataOutputDir apiMaxRetries apiRetryDelay w in
  (local
   = genLocalBindings env succeeding contractListFilePath sourceMapsListStr
       forgeArtifactsPath goPackageName monorepoBasePath metadataOutputDir w
   /\
   etherscan
   = genEtherscanBindings env succeeding contractListFilePath sourceMapsListStr
       etherscanApiKey goPackageName metadataOutputDir apiMaxRetries apiRetryDelay w)
  /\
  (forall data dir err,
     readJSONFile env w1 contractListFilePath = (data, None) ->
     mkTempArtifactsDir w2 = (dir, Some err) ->
     (forall contractName rest,
        cd_Local data = contractName :: rest ->
        let index := getContractArtifactPaths (filepath_Walk env w3 forgeArtifactsPath) in
        index.2 = None ->
        local
        = with_defer
            (genLocalBindings_loop env forgeArtifactsPath goPackageName monorepoBasePath
               metadataOutputDir dir index.1 (sourceMapsSet_of sourceMapsListStr)
               (contractName :: rest))
            (removeTempArtifactsDir env dir) w3
        /\ exists added,
             local.2 = w3 ++ EvLog (LogGeneratingLocal contractName) :: added)
     /\
     (forall contract rest,
        cd_Etherscan data = contract :: rest ->
        etherscan
        = with_defer
            (genEtherscanBindings_loop env etherscanApiKey goPackageName metadataOutputDir
               apiMaxRetries apiRetryDelay dir (contract :: rest))
            (removeTempArtifactsDir env dir) w2
        /\ exists added,
             etherscan.2 = w2 ++ EvLog (LogGeneratingEtherscan (ec_Name contract)) :: added)).
Proof.
  intros succeeding w1 w2 w3 local etherscan. split; [split|].
  - subst local. unfold genLocalBindings.
    apply bind_ext. intros [contracts [e|]] w1'; [reflexivity|].
    destruct (bool_decide (length contracts = 0%nat)); [reflexivity|].
    apply bind_ext. intros _ w2'.
    unfold bind at 1. unfold bind at 2. unfold ask, succeeding.
    destruct (mkTempArtifactsDir w2') as [dir tmperr]. reflexivity.
  - subst etherscan. unfold genEtherscanBindings.
    apply bind_ext. intros [contracts [e|]] w1'; [reflexivity|].
    destruct (bool_decide (length contracts = 0%nat)); [reflexivity|].
    apply bind_ext. intros _ w2'.
    unfold bind, ask, succeeding.
    destruct (mkTempArtifactsDir w2') as [dir tmperr]. reflexivity.
  - intros data dir err Hread Hmk. split.
    + intros contractName rest Hlist index Hwalk.
      assert (local
              = with_defer
                  (genLocalBindings_loop env forgeArtifactsPath goPackageName
                     monorepoBasePath metadataOutputDir dir index.1
                     (sourceMapsSet_of sourceMapsListStr) (contractName :: rest))
                  (removeTempArtifactsDir env dir) w3) as Hrun.
      { subst local.
        rewrite (genLocalBindings_run env mkTempArtifactsDir _ _ _ _ _ _ w data Hread);
          [|rewrite Hlist; discriminate|exact Hwalk].
        fold w1 w2. rewrite Hmk, Hlist. reflexivity. }
      split; [exact Hrun|]. rewrite Hrun.
      apply genLocalBindings_loop_begins.
    + intros contract rest Hlist.
      assert (etherscan
              = with_defer
                  (genEtherscanBindings_loop env etherscanApiKey goPackageName
                     metadataOutputDir apiMaxRetries apiRetryDelay dir (contract :: rest))
                  (removeTempArtifactsDir env dir) w2) as Hrun.
      { subst etherscan.
        rewrite (genEtherscanBindings_run env mkTempArtifactsDir _ _ _ _ _ _ _ w data Hread);
          [|rewrite Hlist; discriminate].
        fold w1 w2. rewrite Hmk, Hlist. reflexivity. }
      split; [exact Hrun|]. rewrite Hrun.
      apply genEtherscanBindings_loop_begins.
Qed.

(** ** Occurrences in messages *)

Lemma HasPrefix_app (part post : string) : GoString.HasPrefix (part +:+ post) part = true.
Proof.
  induction part as [|c part IH]; [reflexivity|].
  change (String c part +:+ post) with (String c (part +:+ post)).
  simpl. rewrite bool_decide_eq_true_2 by reflexivity. exact IH.
Qed.

Lemma contains_unfold (whole part : string) :
  contains whole part
  = GoString.HasPrefix whole part
    || match whole with EmptyString => false | String _ rest => contains rest part end.
Proof. destruct whole; reflexivity. Qed.

Lemma mentions_contains (part whole : string) :
  mentions part whole -> contains whole part = true.
Proof.
  intros (pre & post & ->). induction pre as [|c pre IH].
  - change ("" +:+ part +:+ post) with (part +:+ post).
    rewrite contains_unfold, HasPrefix_app. reflexivity.
  - change (String c pre +:+ part +:+ post) with (String c (pre +:+ part +:+ post)).
    rewrite contains_unfold, IH. apply orb_true_r.
Qed.

Lemma mentions_all_chars (P : ascii -> bool) (part whole : string) :
  mentions part whole -> all_chars P whole = true -> all_chars P part = true.
Proof.
  intros (pre & post & ->). rewrite !all_chars_append.
  intros Hall. apply andb_true_iff in Hall as [_ Hall].
  apply andb_true_iff in Hall as [Hpart _]. exact Hpart.
Qed.

(** The decimal notation of an integer is made of digits and a sign. *)
Lemma pretty_N_go_chars (P : ascii -> bool) (x : N) (s : string) :
  (forall d, P (pretty_N_char d) = true) ->
  all_chars P s = true -> all_chars P (pretty_N_go x s) = true.
Proof.
  intros Hdigit. revert s. induction (N.lt_wf_0 x) as [x _ IH]; intros s Hs.
  destruct (decide (x = 0%N)) as [->|Hx]; [exact Hs|].
  rewrite pretty_N_go_step by lia.
  apply IH; [apply N.div_lt; lia|].
  simpl. rewrite Hdigit, Hs. reflexivity.
Qed.

Lemma pretty_Z_chars (P : ascii -> bool) (z : Z) :
  (forall d, P (pretty_N_char d) = true) -> P "-"%char = true ->
  all_chars P (pretty z) = true.
Proof.
  intros Hdigit Hsign.
  assert (forall p, all_chars P (pretty (Npos p)) = true) as Hpos.
  { intros p. unfold pretty, pretty_N. rewrite decide_False by discriminate.
    apply pretty_N_go_chars; [exact Hdigit|reflexivity]. }
  destruct z as [|p|p].
  - change (all_chars P (pretty 0)) with (P (pretty_N_char 0) && true).
    rewrite Hdigit. reflexivity.
  - exact (Hpos p).
  - change (pretty (Z.neg p)) with (String "-" (pretty (Npos p))).
    simpl. rewrite Hsign. exact (Hpos p).
Qed.

(** ** Retries used up in a run *)

Section Exhausted.

Context {SL : Type} (env : Env SL).
Variables etherscanApiKey goPackageName metadataOutputDir : string.
Variables maxRetries retryDelaySeconds : Z.

Let exhausted : error :=
  Errorf ("Failed to fetch ABI after " +:+ pretty maxRetries +:+ " retries").

Lemma fetchEtherscanAbi_exhausted (url : string) (w : World) :
  (forall w', (requests w < requests w' <= requests w + Z.to_nat maxRetries)%nat ->
              rate_limited env (http env w' url)) ->
  fetchEtherscanAbi env url maxRetries retryDelaySeconds w
  = ("", Some exhausted,
     w ++ retry_trace url (retryDelay_of retryDelaySeconds) (Z.to_nat maxRetries)).
Proof.
  intros Hlimited. unfold fetchEtherscanAbi.
  rewrite <- (Nat.add_0_r (Z.to_nat maxRetries)) at 1.
  rewrite loop_rate_limited by exact Hlimited.
  reflexivity.
Qed.

(** The contract whose ABI cannot be fetched fails with the error of
    [fetchEtherscanAbi], as it is. *)
Lemma genEtherscanBindings_contract_exhausted
    (dir : string) (contract : etherscanContract) (w : World) :
  let url := etherscanGetAbiURL (ec_DeployedAddress contract) etherscanApiKey in
  (forall w', (requests w < requests w' <= requests w + Z.to_nat maxRetries)%nat ->
              rate_limited env (http env w' url)) ->
  genEtherscanBindings_contract env etherscanApiKey goPackageName metadataOutputDir
    maxRetries retryDelaySeconds dir contract w
  = (Some exhausted,
     (w ++ [EvLog (LogGeneratingEtherscan (ec_Name contract))])
       ++ retry_trace url (retryDelay_of retryDelaySeconds) (Z.to_nat maxRetries)).
Proof.
  intros url Hlimited. unfold genEtherscanBindings_contract.
  unfold bind at 1. unfold emit at 1. unfold bind at 1. fold url.
  rewrite fetchEtherscanAbi_exhausted; [reflexivity|].
  intros w' Hw'. apply Hlimited.
  rewrite requests_app in Hw'. change (requests [_]) with 0%nat in Hw'. lia.
Qed.

(** The message holds no colon, and every request URL does. *)
Lemma exhausted_not_url (address apikey : string) :
  ~ mentions (etherscanGetAbiURL address apikey) (Error exhausted).
Proof.
  intros Hmentions.
  apply (mentions_all_chars (fun c => negb (is_char ":" c))) in Hmentions.
  - unfold etherscanGetAbiURL in Hmentions.
    rewrite all_chars_append in Hmentions.
    apply andb_true_iff in Hmentions as [Hscheme _]. vm_compute in Hscheme.
    discriminate Hscheme.
  - unfold exhausted, Errorf, Error. rewrite !all_chars_append.
    rewrite pretty_Z_chars; [reflexivity| |reflexivity].
    intros d. unfold pretty_N_char. by repeat case_match.
Qed.

End Exhausted.

(** C5, as the code has it: when all [maxRetries] attempts met the
    rate-limit condition, the error of [fetchEtherscanAbi] is exactly
    [Failed to fetch ABI after N retries] with [N = maxRetries], whatever
    the URL; [genEtherscanBindings] returns that error as it is, without
    adding the contract to it, so the error is the same text for whichever
    contract of the list could not be fetched; and the text never contains
    the URL that [genEtherscanBindings] requests. *)
Theorem fetchEtherscanAbi_exhausted_error {SL} (env : Env SL)
    (mkTempArtifactsDir : World -> string * option error)
    (contractListFilePath sourceMapsListStr etherscanApiKey : string)
    (goPackageName metadataOutputDir : string)
    (maxRetries retryDelaySeconds : Z) :
  let exhausted :=
    Errorf ("Failed to fetch ABI after " +:+ pretty maxRetries +:+ " retries") in
  (forall url w,
     (forall w', (requests w < requests w' <= requests w + Z.to_nat maxRetries)%nat ->
                 rate_limited env (http env w' url)) ->
     (fetchEtherscanAbi env url maxRetries retryDelaySeconds w).1 = ("", Some exhausted))
  /\
  (forall w data before contract after done,
     let w1 := w ++ [EvReadJSONFile contractListFilePath] in
     let w2 := w1 ++ [EvMkTempArtifactsDir] in
     let dir := (mkTempArtifactsDir w2).1 in
     let url := etherscanGetAbiURL (ec_DeployedAddress contract) etherscanApiKey in
     readJSONFile env w1 contractListFilePath = (data, None) ->
     cd_Etherscan data = before ++ contract :: after ->
     genEtherscanBindings_loop env etherscanApiKey goPackageName metadataOutputDir
       maxRetries retryDelaySeconds dir before w2 = (None, done) ->
     (forall w', (requests done < requests w' <= requests done + Z.to_nat maxRetries)%nat ->
                 rate_limited env (http env w' url)) ->
     (genEtherscanBindings env mkTempArtifactsDir contractListFilePath sourceMapsListStr
        etherscanApiKey goPackageName metadataOutputDir maxRetries retryDelaySeconds w).1
     = Some exhausted)
  /\
  (forall address apikey,
     ~ mentions (etherscanGetAbiURL address apikey) (Error exhausted)).
Proof.
  intros exhausted. split; [|split].
  - intros url w Hlimited. rewrite fetchEtherscanAbi_exhausted by exact Hlimited.
    reflexivity.
  - intros w data before contract after done w1 w2 dir url Hread Hlist Hbefore Hlimited.
    rewrite (genEtherscanBindings_run env mkTempArtifactsDir _ _ _ _ _ _ _ w data Hread);
      [|rewrite Hlist; by destruct before].
    rewrite Hlist.
    destruct (with_defer_remove env _ dir _ _ _
                (genEtherscanBindings_loop_fail_fast env _ _ _ _ _ _ _ after _ _ _ _ _
                   Hbefore
                   (genEtherscanBindings_contract_exhausted env _ _ _ _ _ dir contract done
                      Hlimited))) as [msg Hrun].
    exact (f_equal fst Hrun).
  - apply exhausted_not_url.
Qed.

(** ** The claims at concrete inputs *)

(** C4 fails as stated: with a canonical layout that does not marshal, the
    contract name in the source-maps set and a non-empty source map in the
    artifact, [canonicalizeStorageLayout] returns the empty source map. *)
Lemma canonicalizeStorageLayout_marshal_error_drops_source_map :
  let forgeArtifact := mkArtifact "[abi]" "layout" "1:2:3" "0xdeployed" "0xbin" in
  let sourceMapsSet : gset string := {["A"]} in
  "A" ∈ sourceMapsSet /\
  (canonicalizeStorageLayout Scripted.unmarshalable_env forgeArtifact "/monorepo"
     sourceMapsSet "A").1.1
  <> art_DeployedBytecode_SourceMap forgeArtifact.
Proof. split; [set_solver|]. vm_compute. discriminate. Qed.

(** C5 fails as stated: after two rate-limited attempts for the contract
    [Foo] at [0xf00], the error of [fetchEtherscanAbi], which is also the
    error of the whole run, contains neither the request URL, nor the
    address, nor the contract name. *)
Lemma fetchEtherscanAbi_exhausted_error_names_nothing :
  let url := etherscanGetAbiURL "0xf00" "KEY" in
  let err := Errorf "Failed to fetch ABI after 2 retries" in
  (fetchEtherscanAbi Scripted.limited_foo_env url 2 1 []).1 = ("", Some err) /\
  (genEtherscanBindings Scripted.limited_foo_env Scripted.mkTemp_ok "contracts.json" ""
     "KEY" "bindings" "out" 2 1 []).1 = Some err /\
  ~ mentions url (Error err) /\
  ~ mentions "0xf00" (Error err) /\
  ~ mentions "Foo" (Error err).
Proof.
  cbv zeta. split; [vm_compute; reflexivity|]. split; [vm_compute; reflexivity|].
  repeat split; intros Hm; apply mentions_contains in Hm; vm_compute in Hm; discriminate.
Qed.

(** C2 fails as stated: with a delay of [9223372037] seconds the count of
    nanoseconds does not fit in 64 bits, and each of the two rate-limited
    attempts, the last one too, is followed by a sleep of a negative
    duration, not of [9223372037] seconds. *)
Lemma fetchEtherscanAbi_retry_delay_overflow :
  let url := etherscanGetAbiURL "0xf00" "KEY" in
  let slept := -9223372036709551616 in
  fetchEtherscanAbi Scripted.limited_env url 2 9223372037 []
  = ("", Some (Errorf "Failed to fetch ABI after 2 retries"),
     [EvHttpGet url; EvLog (LogRateLimit slept); EvSleep slept;
      EvHttpGet url; EvLog (LogRateLimit slept); EvSleep slept])
  /\ slept < 0
  /\ slept <> 9223372037 * Second.
Proof.
  cbv zeta. split; [vm_compute; reflexivity|].
  unfold Second. split; lia.
Qed.

Lemma limited_env_rate_limited (url : string) (w : World) :
  rate_limited Scripted.limited_env (http Scripted.limited_env w url).
Proof.
  exists (mkApiResponse "0" "NOTOK" "Max rate limit reached").
  split; [|split; reflexivity].
  exists Scripted.rate_limit_body. split; [|reflexivity].
  unfold Scripted.limited_env, Scripted.env, http, Scripted.http_script.
  destruct (Nat.pred (requests w)); reflexivity.
Defined.

Lemma fetchEtherscanAbi_retry_bound_witness :
  let url := etherscanGetAbiURL "0xf00" "KEY" in
  fetchEtherscanAbi Scripted.limited_env url 3 5 []
  = ("", Some (Errorf "Failed to fetch ABI after 3 retries"),
     [EvHttpGet url; EvLog (LogRateLimit 5000000000); EvSleep 5000000000;
      EvHttpGet url; EvLog (LogRateLimit 5000000000); EvSleep 5000000000;
      EvHttpGet url; EvLog (LogRateLimit 5000000000); EvSleep 5000000000]).
Proof.
  intros url.
  exact (proj1 (fetchEtherscanAbi_retry_bound Scripted.limited_env url 3 5 []
                  ltac:(lia) (limited_env_rate_limited url))).
Defined.

Lemma limited_foo_env_rate_limited (url : string) (w : World) :
  rate_limited Scripted.limited_foo_env (http Scripted.limited_foo_env w url).
Proof.
  exists (mkApiResponse "0" "NOTOK" "Max rate limit reached").
  split; [|split; reflexivity].
  exists Scripted.rate_limit_body. split; [|reflexivity].
  unfold Scripted.limited_foo_env, Scripted.env, http, Scripted.http_script.
  destruct (Nat.pred (requests w)); reflexivity.
Defined.

Lemma fetchEtherscanAbi_exhausted_error_witness :
  let exhausted := Errorf ("Failed to fetch ABI after " +:+ pretty 4 +:+ " retries") in
  (fetchEtherscanAbi Scripted.limited_foo_env "https://api.etherscan.io/api" 4 1 []).1
  = ("", Some exhausted)
  /\ (genEtherscanBindings Scripted.limited_foo_env Scripted.mkTemp_ok "contracts.json" ""
        "KEY" "bindings" "out" 4 1 []).1 = Some exhausted
  /\ ~ mentions (etherscanGetAbiURL "0xf00" "KEY") (Error exhausted).
Proof.
  destruct (fetchEtherscanAbi_exhausted_error Scripted.limited_foo_env Scripted.mkTemp_ok
              "contracts.json" "" "KEY" "bindings" "out" 4 1)
    as (Hfetch & Hrun & Hurl).
  split; [|split].
  - apply Hfetch. intros w' _. apply limited_foo_env_rate_limited.
  - apply (Hrun [] (mkContractsData [] [mkEtherscanContract "Foo" "0xf00" "" "" ""])
             [] (mkEtherscanContract "Foo" "0xf00" "" "" "") []
             ([EvReadJSONFile "contracts.json"] ++ [EvMkTempArtifactsDir])
             eq_refl eq_refl eq_refl).
    intros w' _. apply limited_foo_env_rate_limited.
  - apply Hurl.
Defined.

Lemma fetchEtherscanAbi_retry_recovery_witness :
  let url := etherscanGetAbiURL "0xf00" "KEY" in
  fetchEtherscanAbi Scripted.recovering_env url 5 1 []
  = ("[abi]", None,
     [EvHttpGet url; EvLog (LogRateLimit 1000000000); EvSleep 1000000000;
      EvHttpGet url; EvLog (LogRateLimit 1000000000); EvSleep 1000000000;
      EvHttpGet url]).
Proof.
  intros url.
  apply (fetchEtherscanAbi_retry_recovery Scripted.recovering_env url 5 1 [] 2
           (mkApiResponse "1" "OK" "[abi]")).
  - lia.
  - intros w' Hw'.
    exists (mkApiResponse "0" "NOTOK" "Max rate limit reached").
    split; [|split; reflexivity].
    exists Scripted.rate_limit_body. split; [|reflexivity].
    unfold Scripted.recovering_env, Scripted.env, http, Scripted.http_script.
    change (requests []) with 0%nat in Hw'.
    destruct (requests w') as [|[|[|n]]]; [lia|reflexivity|reflexivity|lia].
  - intros w' Hw'. exists "1|OK|[abi]". split; [|reflexivity].
    unfold Scripted.recovering_env, Scripted.env, http, Scripted.http_script.
    rewrite Hw'. reflexivity.
  - reflexivity.
Defined.

Lemma fetchEtherscanAbi_terminal_failure_witness :
  let url := etherscanGetAbiURL "0xf00" "KEY" in
  exists err logs,
    fetchEtherscanAbi Scripted.refusing_env url 5 1 []
    = ("", Some err,
       [] ++ retry_trace url (retryDelay_of 1) 1 ++ EvHttpGet url :: logs)
    /\ Forall (fun e => exists msg, e = EvLog msg) logs
    /\ requests ([] ++ retry_trace url (retryDelay_of 1) 1 ++ EvHttpGet url :: logs)
       = (requests [] + 1 + 1)%nat.
Proof.
  intros url.
  apply (fetchEtherscanAbi_terminal_failure Scripted.refusing_env url 5 1 [] 1).
  - lia.
  - intros w' Hw'.
    exists (mkApiResponse "0" "NOTOK" "Max rate limit reached").
    split; [|split; reflexivity].
    exists Scripted.rate_limit_body. split; [|reflexivity].
    unfold Scripted.refusing_env, Scripted.env, http, Scripted.http_script.
    change (requests []) with 0%nat in Hw'.
    destruct (requests w') as [|[|n]]; [lia|reflexivity|lia].
  - intros w' Hw'.
    unfold Scripted.refusing_env, Scripted.env, http, Scripted.http_script.
    rewrite Hw'.
    apply (other_status _ "0|NOTOK|Invalid API Key"
             (mkApiResponse "0" "NOTOK" "Invalid API Key")).
    + reflexivity.
    + discriminate.
    + intros [_ Hresult]. discriminate Hresult.
Defined.


Lemma gen_empty_manifest_witness :
  (exists err,
     genLocalBindings Scripted.limited_env Scripted.mkTemp_ok "contracts.json" ""
       "artifacts" "bindings" "/monorepo" "out" []
     = (Some err, [] ++ [EvReadJSONFile "contracts.json"])
     /\ mentions "contracts.json" (Error err))
  /\
  (exists err,
     genEtherscanBindings Scripted.limited_env Scripted.mkTemp_ok "contracts.json" ""
       "KEY" "bindings" "out" 3 1 []
     = (Some err, [] ++ [EvReadJSONFile "contracts.json"])
     /\ mentions "contracts.json" (Error err)).
Proof.
  destruct (gen_empty_manifest Scripted.limited_env Scripted.mkTemp_ok "contracts.json" ""
              "bindings" "out" [] (mkContractsData [] []) None eq_refl)
    as [Hlocal Hetherscan].
  split.
  - exact (Hlocal eq_refl "artifacts" "/monorepo").
  - exact (Hetherscan eq_refl "KEY" 3 1).
Defined.


Lemma gen_ignores_mkTempArtifactsDir_error_witness :
  let started := [EvReadJSONFile "contracts.json"; EvMkTempArtifactsDir] in
  (exists added,
     (genLocalBindings Scripted.failing_second_env Faulty.mkTemp_fails "contracts.json" "A,C"
        "artifacts" "bindings" "/monorepo" "out" []).2
     = (started ++ [EvWalk "artifacts"]) ++ EvLog (LogGeneratingLocal "A") :: added)
  /\
  (exists added,
     (genEtherscanBindings Scripted.failing_second_env Faulty.mkTemp_fails "contracts.json"
        "A,C" "KEY" "bindings" "out" 3 1 []).2
     = started ++ EvLog (LogGeneratingEtherscan "Foo") :: added).
Proof.
  intros started.
  destruct (gen_ignores_mkTempArtifactsDir_error Scripted.failing_second_env
              Faulty.mkTemp_fails "contracts.json" "A,C" "bindings" "out" "artifacts"
              "/monorepo" "KEY" 3 1 []) as [_ Hreached].
  destruct (Hreached Scripted.three_contracts "" Faulty.permission_denied eq_refl eq_refl)
    as [Hlocal Hetherscan].
  split.
  - exact (proj2 (Hlocal "A" ["B"; "C"] eq_refl eq_refl)).
  - exact (proj2 (Hetherscan (mkEtherscanContract "Foo" "0xf00" "" "" "")
                    [mkEtherscanContract "Bar" "0xba7" "" "" "";
                     mkEtherscanContract "Baz" "0xba2" "" "" ""] eq_refl)).
Defined.

(** * Further properties *)

(** ** The compiler-version pattern *)

Section VersionPattern.

Import VersionRegexp.

Let not_dot : ascii -> bool := fun c => negb (is_char "." c).

Lemma match_length_not_dot (c : ascii) (r : string) :
  not_dot c = true -> match_length (String c r) = None.
Proof.
  unfold not_dot, is_char. intros Hc%negb_true_iff.
  unfold match_length, match_prefix, dot. rewrite Hc. reflexivity.
Qed.

(** Bytes before the first dot are copied. *)
Lemma remove_from_plain (a s : string) :
  all_chars not_dot a = true -> remove_from O (a +:+ s) = a +:+ remove_from O s.
Proof.
  induction a as [|c a IH]; [reflexivity|]. simpl all_chars.
  intros [Hc Ha]%andb_true_iff. rewrite !append_cons.
  simpl remove_from. fold (match_length (String c (a +:+ s))).
  rewrite match_length_not_dot by exact Hc. rewrite IH by exact Ha. reflexivity.
Qed.

Lemma remove_from_all (r : string) (k : nat) :
  (String.length r <= k)%nat -> remove_from k r = "".
Proof.
  revert k. induction r as [|c r IH]; intros k Hk; [reflexivity|].
  simpl in Hk. destruct k as [|k]; [lia|]. simpl. apply IH. lia.
Qed.

Lemma drop_digits_append (a s : string) :
  all_chars is_digit a = true -> drop_digits (a +:+ s) = drop_digits s.
Proof.
  induction a as [|c a IH]; [reflexivity|]. simpl all_chars.
  intros [Hc Ha]%andb_true_iff. rewrite append_cons. simpl. rewrite Hc. exact (IH Ha).
Qed.

Lemma digits_append (a s : string) :
  digit_run a -> digits (a +:+ s) = Some (drop_digits s).
Proof.
  intros [Hne Ha]. destruct a as [|c a]; [done|]. simpl in Ha.
  apply andb_true_iff in Ha as [Hc Ha].
  rewrite append_cons. unfold digits. rewrite Hc, drop_digits_append by exact Ha.
  reflexivity.
Qed.

(** The pattern matches a whole version suffix. *)
Lemma match_prefix_version (a b c : string) :
  digit_run a -> digit_run b -> digit_run c ->
  match_prefix (version_suffix a b c) = Some "".
Proof.
  intros Ha Hb Hc. unfold version_suffix, match_prefix.
  change ("." +:+ a +:+ "." +:+ b +:+ "." +:+ c)
    with (String "." (a +:+ String "." (b +:+ String "." c))).
  simpl. rewrite digits_append by exact Ha. simpl.
  rewrite digits_append by exact Hb. simpl.
  rewrite <- (append_empty_r c), digits_append by exact Hc. reflexivity.
Qed.

(** [ReplaceAllString] leaves a name without dots as it is. *)
Lemma ReplaceAllString_plain (name : string) :
  all_chars not_dot name = true -> ReplaceAllString_empty name = name.
Proof.
  intros Hname. unfold ReplaceAllString_empty.
  rewrite <- (append_empty_r name) at 1.
  rewrite remove_from_plain by exact Hname. simpl. apply append_empty_r.
Qed.

(** [ReplaceAllString] removes a version suffix from a name without dots. *)
Lemma ReplaceAllString_version (name a b c : string) :
  all_chars not_dot name = true ->
  digit_run a -> digit_run b -> digit_run c ->
  ReplaceAllString_empty (name +:+ version_suffix a b c) = name.
Proof.
  intros Hname Ha Hb Hc. unfold ReplaceAllString_empty.
  rewrite remove_from_plain by exact Hname.
  assert (remove_from O (version_suffix a b c) = "") as ->; [|apply append_empty_r].
  pose proof (match_prefix_version a b c Ha Hb Hc) as Hmatch.
  unfold version_suffix in *.
  change ("." +:+ a +:+ "." +:+ b +:+ "." +:+ c)
    with (String "." (a +:+ "." +:+ b +:+ "." +:+ c)) in *.
  simpl remove_from.
  fold (match_length (String "." (a +:+ "." +:+ b +:+ "." +:+ c))).
  unfold match_length. rewrite Hmatch. simpl mbind.
  apply remove_from_all. simpl. lia.
Qed.

End VersionPattern.

(** ** Sanitized names *)

Lemma plain_name_no_slash (name : string) :
  plain_name name -> all_chars (fun c => negb (is_char "/" c)) name = true.
Proof.
  intros [_ Hname]. revert Hname. apply all_chars_impl.
  intros c Hc. apply andb_true_iff in Hc. tauto.
Qed.

Lemma plain_name_no_dot (name : string) :
  plain_name name -> all_chars (fun c => negb (is_char "." c)) name = true.
Proof.
  intros [_ Hname]. revert Hname. apply all_chars_impl.
  intros c Hc. apply andb_true_iff in Hc. tauto.
Qed.

Lemma digit_run_no_slash (s : string) :
  digit_run s -> all_chars (fun c => negb (is_char "/" c)) s = true.
Proof.
  intros [_ Hs]. revert Hs. apply all_chars_impl.
  intros c Hc. unfold is_char. apply negb_true_iff, bool_decide_eq_false_2.
  intros ->. discriminate Hc.
Qed.

Lemma HasSuffix_json (dir stem : string) :
  GoString.HasSuffix (dir +:+ "/" +:+ stem +:+ ".json") ".json" = true.
Proof.
  replace (dir +:+ "/" +:+ stem +:+ ".json") with ((dir +:+ "/" +:+ stem) +:+ ".json")
    by (rewrite !append_assoc; reflexivity).
  apply HasSuffix_append.
Qed.

Lemma sanitized_plain_path (dir name : string) :
  plain_name name -> ArtifactPaths.sanitized (dir +:+ "/" +:+ name +:+ ".json") = name.
Proof.
  intros Hname. unfold ArtifactPaths.sanitized.
  rewrite Base_json by (apply plain_name_no_slash, Hname).
  rewrite TrimSuffix_append.
  apply ReplaceAllString_plain, plain_name_no_dot, Hname.
Qed.

Lemma sanitized_versioned_path (dir name a b c : string) :
  plain_name name -> digit_run a -> digit_run b -> digit_run c ->
  ArtifactPaths.sanitized (dir +:+ "/" +:+ (name +:+ version_suffix a b c) +:+ ".json")
  = name.
Proof.
  intros Hname Ha Hb Hc. unfold ArtifactPaths.sanitized.
  rewrite Base_json.
  2:{ unfold version_suffix. rewrite !all_chars_append.
      rewrite (plain_name_no_slash name Hname), (digit_run_no_slash a Ha),
        (digit_run_no_slash b Hb), (digit_run_no_slash c Hc). reflexivity. }
  rewrite TrimSuffix_append.
  apply ReplaceAllString_version; try assumption.
  apply plain_name_no_dot, Hname.
Qed.

(** X1: for a contract name with no dot and no path separator, once a
    walk without error has visited [dir/Name.json] the index built by
    [getContractArtifactPaths] has an entry under the key [Name]: the path
    it held for [Name] before the visit if an artifact of that name was met
    earlier, and [dir/Name.json] if none was.  What the walk visits later,
    an error included, does not change that entry. *)
Theorem getContractArtifactPaths_plain_file
    (before after : list WalkEntry) (dir name : string) :
  plain_name name ->
  Forall (fun e => e.2 = None) before ->
  let path := dir +:+ "/" +:+ name +:+ ".json" in
  (getContractArtifactPaths (before ++ (path, None) :: after)).1 !! name
  = Some (default path ((getContractArtifactPaths before).1 !! name)).
Proof.
  intros Hname Hok path.
  rewrite <- (sanitized_plain_path dir name Hname). fold path.
  apply getContractArtifactPaths_visited; [exact Hok|apply HasSuffix_json].
Qed.

(** X2: the same holds for [dir/Name.a.b.c.json], the file name with the
    compiler version [a.b.c] in it: the version is removed from the key, so
    after the visit the index has an entry under [Name], the earlier path
    of that name if there was one and this file otherwise. *)
Theorem getContractArtifactPaths_versioned_file
    (before after : list WalkEntry) (dir name a b c : string) :
  plain_name name -> digit_run a -> digit_run b -> digit_run c ->
  Forall (fun e => e.2 = None) before ->
  let path := dir +:+ "/" +:+ (name +:+ version_suffix a b c) +:+ ".json" in
  (getContractArtifactPaths (before ++ (path, None) :: after)).1 !! name
  = Some (default path ((getContractArtifactPaths before).1 !! name)).
Proof.
  intros Hname Ha Hb Hc Hok path.
  rewrite <- (sanitized_versioned_path dir name a b c Hname Ha Hb Hc). fold path.
  apply getContractArtifactPaths_visited; [exact Hok|apply HasSuffix_json].
Qed.

(** ** The artifact index, further *)

Section ArtifactIndexFurther.

Import ArtifactPaths.

Lemma visit_sound (m : gmap string string) (visited name path : string) :
  visit m visited !! name = Some path ->
  m !! name = Some path
  \/ (path = visited /\ GoString.HasSuffix path ".json" = true /\ sanitized path = name).
Proof.
  unfold visit. destruct (GoString.HasSuffix visited ".json") eqn:Hjson; [|auto].
  destruct (m !! sanitized visited) eqn:Hold; [auto|].
  destruct (decide (sanitized visited = name)) as [<-|Hne].
  - rewrite lookup_insert_eq. intros [= <-]. auto.
  - rewrite lookup_insert_ne by exact Hne. auto.
Qed.

Lemma walk_sound (entries : list WalkEntry) (m : gmap string string) (name path : string) :
  (walk entries m).1 !! name = Some path ->
  m !! name = Some path
  \/ (In (path, None) entries /\ GoString.HasSuffix path ".json" = true
      /\ sanitized path = name).
Proof.
  revert m. induction entries as [|[visited [err|]] rest IH]; intros m; simpl; [auto..|].
  intros Hlookup. destruct (IH _ Hlookup) as [Hm|(Hin & Hjson & Hname)].
  - destruct (visit_sound _ _ _ _ Hm) as [Hm'|(-> & Hjson & Hname)]; auto.
  - auto.
Qed.

(** X3: every entry of the index comes from the walk: its path was visited
    without error, ends in [.json], and sanitizes to its key. *)
Theorem getContractArtifactPaths_sound (entries : list WalkEntry) (name path : string) :
  (getContractArtifactPaths entries).1 !! name = Some path ->
  In (path, None) entries
  /\ GoString.HasSuffix path ".json" = true
  /\ sanitized path = name.
Proof.
  intros Hlookup. destruct (walk_sound _ _ _ _ Hlookup) as [Hempty|H]; [|exact H].
  rewrite lookup_empty in Hempty. discriminate.
Qed.

(** X4: an error met during the walk stops it: the error is returned with
    the index of what was visited before, and nothing after it is seen. *)
Theorem getContractArtifactPaths_walk_error
    (before after : list WalkEntry) (path : string) (err : error) :
  Forall (fun e => e.2 = None) before ->
  getContractArtifactPaths (before ++ (path, Some err) :: after)
  = ((getContractArtifactPaths before).1, Some err).
Proof.
  intros Hok. unfold getContractArtifactPaths.
  rewrite walk_app by exact Hok. reflexivity.
Qed.

Lemma walk_json_only (entries : list WalkEntry) (m : gmap string string) :
  Forall (fun e => e.2 = None) entries ->
  walk entries m
  = walk (List.filter (fun e => GoString.HasSuffix e.1 ".json") entries) m.
Proof.
  revert m. induction entries as [|[visited err] rest IH]; intros m Hok; [reflexivity|].
  inversion Hok as [|? ? Hhd Htl]; subst. simpl in Hhd. subst err.
  simpl. destruct (GoString.HasSuffix visited ".json") eqn:Hjson.
  - simpl. apply IH, Htl.
  - unfold visit at 1. rewrite Hjson. apply IH, Htl.
Qed.

(** X6: files that do not end in [.json], directories among them, leave
    no mark on the index. *)
Theorem getContractArtifactPaths_json_only (entries : list WalkEntry) :
  Forall (fun e => e.2 = None) entries ->
  getContractArtifactPaths entries
  = getContractArtifactPaths
      (List.filter (fun e => GoString.HasSuffix e.1 ".json") entries).
Proof. apply walk_json_only. Qed.

(** X5: when several artifacts have the same sanitized name, the index
    holds the path of the one the walk meets first; the ones met later do
    not replace it. *)
Theorem getContractArtifactPaths_keeps_first
    (before after : list WalkEntry) (path : string) :
  Forall (fun e => e.2 = None) before ->
  Forall (fun e => GoString.HasSuffix e.1 ".json" = true -> sanitized e.1 <> sanitized path)
    before ->
  GoString.HasSuffix path ".json" = true ->
  (getContractArtifactPaths (before ++ (path, None) :: after)).1 !! sanitized path
  = Some path.
Proof. apply getContractArtifactPaths_first_wins. Qed.

(** X7: the two forms of file name meet in the index: when the walk meets
    [dir/Name.json] before any other artifact of that name, a later
    [dir'/Name.a.b.c.json] has the same key and does not replace it. *)
Theorem getContractArtifactPaths_versioned_later
    (before between after : list WalkEntry) (dir dir' name a b c : string) :
  plain_name name -> digit_run a -> digit_run b -> digit_run c ->
  Forall (fun e => e.2 = None) before ->
  Forall (fun e => GoString.HasSuffix e.1 ".json" = true -> sanitized e.1 <> name) before ->
  let first := dir +:+ "/" +:+ name +:+ ".json" in
  let later := dir' +:+ "/" +:+ (name +:+ version_suffix a b c) +:+ ".json" in
  sanitized later = sanitized first
  /\ (getContractArtifactPaths
        (before ++ (first, None) :: between ++ (later, None) :: after)).1 !! name
     = Some first.
Proof.
  intros Hname Ha Hb Hc Hok Hother first later.
  pose proof (sanitized_plain_path dir name Hname) as Hfirst.
  pose proof (sanitized_versioned_path dir' name a b c Hname Ha Hb Hc) as Hlater.
  pose proof (HasSuffix_json dir name) as Hjson.
  fold first in Hjson, Hfirst. fold later in Hlater.
  split; [congruence|].
  rewrite <- Hfirst at 1.
  apply getContractArtifactPaths_first_wins; [exact Hok| |exact Hjson].
  rewrite Hfirst. exact Hother.
Qed.

End ArtifactIndexFurther.

(** ** What a computation adds to the trace *)

Section Silent.

Variable P : Event -> bool.

Lemma silent_ret {A} (a : A) : silent P (ret a).
Proof. intros w. reflexivity. Qed.

Lemma silent_ask {A} (oracle : World -> A) : silent P (ask oracle).
Proof. intros w. reflexivity. Qed.

Lemma silent_emit (e : Event) : P e = false -> silent P (emit e).
Proof.
  intros He w. unfold emit. simpl. rewrite List.filter_app. simpl. rewrite He.
  apply app_nil_r.
Qed.

Lemma silent_bind {A B} (m : M A) (k : A -> M B) :
  silent P m -> (forall a, silent P (k a)) -> silent P (bind m k).
Proof.
  intros Hm Hk w. rewrite bind_run, Hk. apply Hm.
Qed.

Lemma silent_with_defer {A} (body : M A) (deferred : M unit) :
  silent P body -> silent P deferred -> silent P (with_defer body deferred).
Proof.
  intros Hbody Hdeferred. unfold with_defer.
  apply silent_bind; [exact Hbody|]. intros a.
  apply silent_bind; [exact Hdeferred|]. intros _. apply silent_ret.
Qed.

End Silent.

(** Break a computation into its steps; what remains are the actions that
    [P] selects and the calls of other functions. *)
Ltac silent_step :=
  match goal with
  | |- silent _ (ret _) => apply silent_ret
  | |- silent _ (ask _) => apply silent_ask
  | |- silent _ (emit _) => apply silent_emit; reflexivity
  | |- silent _ (with_defer _ _) => apply silent_with_defer
  | |- silent _ (bind _ _) => apply silent_bind; [|intros ?; cbv beta]
  | |- silent _ (match ?x with _ => _ end) => destruct x
  | |- silent _ (if ?b then _ else _) => destruct b
  end.

Ltac silent_steps := repeat silent_step.

(** ** The retry loop, whatever the answers *)

Section RetryLoopBound.

Context {SL : Type} (env : Env SL).
Variables (url : string) (maxRetries retryDelay : Z).

Lemma fetchEtherscanData_requests (w : World) :
  requests (fetchEtherscanData env url w).2 = S (requests w).
Proof.
  unfold fetchEtherscanData, bind, emit, ask, ret.
  destruct (http env _ url); simpl; apply requests_request.
Qed.



End RetryLoopBound.


(** X9: with a retry bound of zero or less no request is issued at all, and
    the error names that bound. *)
Theorem fetchEtherscanAbi_no_attempt {SL} (env : Env SL) (url : string)
    (maxRetries retryDelaySeconds : Z) (w : World) :
  maxRetries <= 0 ->
  fetchEtherscanAbi env url maxRetries retryDelaySeconds w
  = ("", Some (Errorf ("Failed to fetch ABI after " +:+ pretty maxRetries +:+ " retries")), w).
Proof.
  intros Hle. unfold fetchEtherscanAbi.
  replace (Z.to_nat maxRetries) with 0%nat by lia. reflexivity.
Qed.

(** X10: the delay between retries is the number of seconds asked for as
    long as the count of nanoseconds fits in 64 bits; for the next
    [9223372037] values of the argument the product has wrapped around and
    the delay is negative. *)
Theorem retryDelay_of_range (apiRetryDelay : Z) :
  (-9223372036 <= apiRetryDelay <= 9223372036 ->
   retryDelay_of apiRetryDelay = apiRetryDelay * Second)
  /\ (9223372037 <= apiRetryDelay <= 18446744073 ->
      retryDelay_of apiRetryDelay = apiRetryDelay * Second - 2 ^ 64
      /\ retryDelay_of apiRetryDelay < 0).
Proof.
  split; [apply retryDelay_of_seconds|].
  intros Hrange. unfold retryDelay_of, wrap64, Second.
  assert ((apiRetryDelay * 1000000000 + 2 ^ 63) mod 2 ^ 64
          = apiRetryDelay * 1000000000 + 2 ^ 63 - 2 ^ 64) as ->.
  { symmetry. apply Z.mod_unique with (q := 1); lia. }
  lia.
Qed.

Lemma fetchEtherscanBytecode_requests {SL} (env : Env SL) (url : string) (w : World) :
  requests (fetchEtherscanBytecode env url w).2 = S (requests w).
Proof.
  unfold fetchEtherscanBytecode. rewrite bind_run.
  pose proof (fetchEtherscanData_requests env url w) as Hdata.
  destruct (fetchEtherscanData env url w) as [[body [err|]] w1]; simpl in *; [exact Hdata|].
  destruct (json_Unmarshal_etherscanRpcApiResponse env body) as [r [err|]].
  - unfold bind, emit, ret. simpl. rewrite requests_app, Hdata.
    change (requests [_]) with 0%nat. lia.
  - exact Hdata.
Qed.

(** X11: [fetchEtherscanBytecode] issues exactly one request whatever the
    answer: a rate-limited answer is not retried. *)
Theorem fetchEtherscanBytecode_one_request {SL} (env : Env SL) (url : string) (w : World) :
  requests (fetchEtherscanBytecode env url w).2 = S (requests w).
Proof. apply fetchEtherscanBytecode_requests. Qed.

(** X12: a body that parses as the procedure-call envelope gives its
    result field as the bytecode, unchanged and unchecked, also when the
    body is the status envelope of a rate-limited answer. *)
Theorem fetchEtherscanBytecode_verbatim {SL} (env : Env SL) (url body : string)
    (r : etherscanRpcApiResponse) (w : World) :
  http env (w ++ [EvHttpGet url]) url = Body body ->
  json_Unmarshal_etherscanRpcApiResponse env body = (r, None) ->
  fetchEtherscanBytecode env url w = (rpc_Result r, None, w ++ [EvHttpGet url]).
Proof.
  intros Hanswer Hparse.
  unfold fetchEtherscanBytecode, fetchEtherscanData, bind, emit, ask, ret.
  rewrite Hanswer, Hparse. reflexivity.
Qed.

(** ** Reading a forge artifact *)

Section ReadForgeArtifact.

Context {SL : Type} `{!Inhabited SL} (env : Env SL).
Variables (forgeArtifactsPath contractName : string).
Variable contractArtifactPaths : gmap string string.

Let standard : string :=
  path_Join env [forgeArtifactsPath; contractName +:+ ".sol"; contractName +:+ ".json"].
Let other : string := default "" (contractArtifactPaths !! contractName).

(** What [readForgeArtifact] makes of the bytes it has read. *)
Let parsed (raw : string) : Artifact SL * option error :=
  let '(forgeArtifact, err) := json_Unmarshal_Artifact env raw in
  (forgeArtifact,
   match err with
   | Some err =>
       Some (Errorf ("Failed to parse forge artifact of "
                     +:+ strconv_Quote env contractName +:+ ": " +:+ Error err
                     +:+ String (ascii_of_nat 10) ""))
   | None => None
   end).

(** X13: when reading the standard path gives anything but a not-exist
    error, the index is not consulted and the bytes returned are parsed: a
    read error of another kind is not reported, only a parse error is. *)
Theorem readForgeArtifact_standard (w : World) (raw : string) (err : option error) :
  os_ReadFile env (w ++ [EvReadFile standard]) standard = (raw, err) ->
  errors_Is_ErrNotExist err = false ->
  readForgeArtifact env forgeArtifactsPath contractName contractArtifactPaths w
  = (parsed raw, w ++ [EvReadFile standard; EvLog (LogUsingArtifact standard)]).
Proof.
  intros Hread Hexists. subst parsed. cbv beta.
  unfold readForgeArtifact, ReadFile, bind, emit, ask, ret. fold standard.
  rewrite Hread, Hexists.
  rewrite <- app_assoc. simpl app.
  destruct (json_Unmarshal_Artifact env raw) as [a [e|]]; reflexivity.
Qed.

(** X14: when the standard path does not exist, the path the index holds
    for the contract name is read instead, the empty path when the index
    has no entry, and the bytes read there are parsed. *)
Theorem readForgeArtifact_fallback (w : World) (raw0 raw : string)
    (err0 err : option error) :
  let w1 := w ++ [EvReadFile standard;
                  EvLog (LogCannotFindArtifact contractName standard other);
                  EvReadFile other] in
  os_ReadFile env (w ++ [EvReadFile standard]) standard = (raw0, err0) ->
  errors_Is_ErrNotExist err0 = true ->
  os_ReadFile env w1 other = (raw, err) ->
  errors_Is_ErrNotExist err = false ->
  readForgeArtifact env forgeArtifactsPath contractName contractArtifactPaths w
  = (parsed raw, w1 ++ [EvLog (LogUsingArtifact other)]).
Proof.
  intros w1 Hread0 Hmissing Hread Hexists. subst parsed. cbv beta.
  unfold readForgeArtifact, ReadFile, bind, emit, ask, ret. fold standard other.
  rewrite Hread0, Hmissing.
  replace (((w ++ [EvReadFile standard])
              ++ [EvLog (LogCannotFindArtifact contractName standard other)])
             ++ [EvReadFile other]) with w1
    by (subst w1; rewrite <- !app_assoc; reflexivity).
  rewrite Hread, Hexists.
  destruct (json_Unmarshal_Artifact env raw) as [a [e|]]; reflexivity.
Qed.

(** X15: when neither the standard path nor the path from the index
    exists, the result is the zero artifact and an error that quotes the
    contract name; nothing is parsed. *)
Theorem readForgeArtifact_missing (w : World) (raw0 raw : string)
    (err0 err : option error) :
  let w1 := w ++ [EvReadFile standard;
                  EvLog (LogCannotFindArtifact contractName standard other);
                  EvReadFile other] in
  os_ReadFile env (w ++ [EvReadFile standard]) standard = (raw0, err0) ->
  errors_Is_ErrNotExist err0 = true ->
  os_ReadFile env w1 other = (raw, err) ->
  errors_Is_ErrNotExist err = true ->
  readForgeArtifact env forgeArtifactsPath contractName contractArtifactPaths w
  = (Artifact_zero,
     Some (Errorf ("Cannot find forge-artifact of " +:+ strconv_Quote env contractName
                   +:+ String (ascii_of_nat 10) "")),
     w1).
Proof.
  intros w1 Hread0 Hmissing Hread Hmissing'.
  unfold readForgeArtifact, ReadFile, bind, emit, ask, ret. fold standard other.
  rewrite Hread0, Hmissing.
  replace (((w ++ [EvReadFile standard])
              ++ [EvLog (LogCannotFindArtifact contractName standard other)])
             ++ [EvReadFile other]) with w1
    by (subst w1; rewrite <- !app_assoc; reflexivity).
  rewrite Hread, Hmissing'. reflexivity.
Qed.

End ReadForgeArtifact.

(** ** Escaping the storage layout *)

Lemma escape_quotes_cons (c : ascii) (s : string) :
  escape_quotes (String c s)
  = if bool_decide (c = quote)
    then String backslash (String c (escape_quotes s))
    else String c (escape_quotes s).
Proof. reflexivity. Qed.

Lemma escape_quotes_escaped (s : string) (after_backslash : bool) :
  quotes_escaped_after after_backslash (escape_quotes s) = true.
Proof.
  revert after_backslash. induction s as [|c s IH]; intros b; [reflexivity|].
  rewrite escape_quotes_cons. destruct (bool_decide (c = quote)) eqn:Hc.
  - apply bool_decide_eq_true_1 in Hc. subst c. simpl. apply IH.
  - simpl. rewrite Hc. simpl. apply IH.
Qed.

(** An escaped string does not begin with a double quote. *)
Lemma escape_quotes_head (s : string) :
  match escape_quotes s with
  | String d _ => bool_decide (d = quote) = false
  | EmptyString => s = ""
  end.
Proof.
  destruct s as [|c s]; [reflexivity|].
  rewrite escape_quotes_cons. destruct (bool_decide (c = quote)) eqn:Hc; [reflexivity|exact Hc].
Qed.

Lemma unescape_escape_quotes (s : string) : unescape_quotes (escape_quotes s) = s.
Proof.
  induction s as [|c s IH]; [reflexivity|].
  rewrite escape_quotes_cons.
  pose proof (escape_quotes_head s) as Hhead.
  destruct (bool_decide (c = quote)) eqn:Hc.
  - apply bool_decide_eq_true_1 in Hc. subst c.
    change (unescape_quotes (String backslash (String quote (escape_quotes s))))
      with (unescape_quotes (String quote (escape_quotes s))).
    simpl. destruct (escape_quotes s) as [|d t] eqn:Hs.
    + subst s. reflexivity.
    + rewrite <- IH. reflexivity.
  - simpl. destruct (escape_quotes s) as [|d t] eqn:Hs.
    + subst s. reflexivity.
    + rewrite Hhead, andb_false_r, <- IH. reflexivity.
Qed.

(** X16: in the storage-layout string that [canonicalizeStorageLayout]
    returns, every double quote comes right after a backslash. *)
Theorem canonicalizeStorageLayout_quotes_escaped {SL} (env : Env SL)
    (forgeArtifact : Artifact SL) (monorepoBasePath : string)
    (sourceMapsSet : gset string) (contractName : string) :
  quotes_escaped
    (canonicalizeStorageLayout env forgeArtifact monorepoBasePath sourceMapsSet
       contractName).1.2
  = true.
Proof.
  unfold canonicalizeStorageLayout, quotes_escaped. cbv zeta.
  destruct (json_Marshal_StorageLayout env _) as [json [err|]]; [reflexivity|].
  apply escape_quotes_escaped.
Qed.

(** X17: the escaping loses nothing: dropping the backslash before each
    double quote gives the text back, so different texts have different
    escaped forms. *)
Theorem escape_quotes_round_trip (s : string) :
  unescape_quotes (escape_quotes s) = s
  /\ forall t, escape_quotes s = escape_quotes t -> s = t.
Proof.
  split; [apply unescape_escape_quotes|].
  intros t Heq. rewrite <- (unescape_escape_quotes s), Heq. apply unescape_escape_quotes.
Qed.

(** ** The source-maps set *)

Section SourceMapsSet.

Let no_comma : ascii -> bool := fun c => negb (is_char "," c).

Lemma Split_nonempty (s : string) (sep : ascii) : GoString.Split s sep <> [].
Proof.
  destruct s as [|c s]; [discriminate|]. simpl.
  destruct (bool_decide (c = sep)); [discriminate|].
  destruct (GoString.Split s sep); discriminate.
Qed.

Lemma Split_plain (a s f : string) (fs : list string) :
  all_chars no_comma a = true ->
  GoString.Split s "," = f :: fs ->
  GoString.Split (a +:+ s) "," = (a +:+ f) :: fs.
Proof.
  intros Ha Hs. induction a as [|c a IH]; [exact Hs|].
  simpl in Ha. apply andb_true_iff in Ha as [Hc Ha].
  rewrite !append_cons. simpl. rewrite (IH Ha).
  unfold no_comma, is_char in Hc. apply negb_true_iff in Hc. rewrite Hc. reflexivity.
Qed.

(** Splitting at the commas undoes joining with commas. *)
Lemma Split_Join (names : list string) :
  names ≠ [] ->
  Forall (fun name => all_chars no_comma name = true) names ->
  GoString.Split (Join names ",") "," = names.
Proof.
  induction names as [|name rest IH]; [done|]. intros _ Hall.
  inversion Hall as [|? ? Hname Hrest]; subst.
  destruct rest as [|name' rest].
  - simpl Join. rewrite <- (append_empty_r name) at 1.
    rewrite (Split_plain name "" "" []) by (exact Hname || reflexivity).
    rewrite append_empty_r. reflexivity.
  - change (Join (name :: name' :: rest) ",")
      with (name +:+ String "," (Join (name' :: rest) ",")).
    rewrite (Split_plain name _ "" (name' :: rest)); [rewrite append_empty_r; reflexivity|exact Hname|].
    change (GoString.Split (String "," (Join (name' :: rest) ",")) ",")
      with ("" :: GoString.Split (Join (name' :: rest) ",") ",").
    rewrite IH by (done || exact Hrest). reflexivity.
Qed.

Lemma elem_of_foldl_union (l : list string) (acc : gset string) (x : string) :
  x ∈ foldl (fun (s : gset string) k => {[k]} ∪ s) acc l <-> x ∈ l \/ x ∈ acc.
Proof.
  revert acc. induction l as [|k l IH]; intros acc; simpl.
  - rewrite elem_of_nil. tauto.
  - rewrite IH, elem_of_cons, elem_of_union, elem_of_singleton. tauto.
Qed.

Lemma elem_of_sourceMapsSet_of (sourceMapsListStr x : string) :
  x ∈ sourceMapsSet_of sourceMapsListStr <-> x ∈ GoString.Split sourceMapsListStr ",".
Proof.
  unfold sourceMapsSet_of. cbv zeta. rewrite elem_of_foldl_union.
  rewrite elem_of_empty. tauto.
Qed.

(** X18: for a list of names without commas, written with commas between
    them, the source-maps set holds exactly these names; the empty list
    gives the set that holds the empty name. *)
Theorem sourceMapsSet_of_Join (names : list string) (x : string) :
  Forall (fun name => all_chars no_comma name = true) names ->
  x ∈ sourceMapsSet_of (Join names ",") <-> x ∈ names \/ (names = [] /\ x = "").
Proof.
  intros Hall. rewrite elem_of_sourceMapsSet_of.
  destruct names as [|name rest].
  - simpl. rewrite list_elem_of_singleton, elem_of_nil. intuition.
  - rewrite Split_Join by (done || exact Hall). intuition discriminate.
Qed.

End SourceMapsSet.

(** ** Writing a metadata file *)

Section WriteMetadata.

Context {SL : Type} (env : Env SL).
Variables (metadataOutputDir contractName : string).

Let metaDataFilePath : string :=
  path_Join env [metadataOutputDir; strings_ToLower env contractName +:+ "_more.go"].

(** X19: when the metadata file cannot be opened, the template is not run;
    the deferred [Close] is still called, on the file that was not opened;
    the error names the contract and the path. *)
Theorem writeContractMetadata_open_failure
    (localMetaData : localContractMetadata) (etherscanMetaData : etherscanContractMetadata)
    (w : World) (err : error) :
  os_OpenFile env (w ++ [EvOpenFile metaDataFilePath]) metaDataFilePath = Some err ->
  let failure :=
    Errorf ("Error opening " +:+ contractName +:+ "'s metadata file at "
            +:+ metaDataFilePath +:+ ": " +:+ Error err) in
  let w' := w ++ [EvOpenFile metaDataFilePath; EvCloseFile metaDataFilePath] in
  writeLocalContractMetadata env localMetaData metadataOutputDir contractName w
  = (Some failure, w')
  /\ writeEtherscanContractMetadata env etherscanMetaData metadataOutputDir contractName w
     = (Some failure, w')
  /\ mentions contractName (Error failure)
  /\ mentions metaDataFilePath (Error failure).
Proof.
  intros Hopen failure w'. split; [|split; [|split]].
  - unfold writeLocalContractMetadata, with_defer, bind, emit, ask, ret.
    fold metaDataFilePath. rewrite Hopen. subst w'. rewrite <- app_assoc. reflexivity.
  - unfold writeEtherscanContractMetadata, with_defer, bind, emit, ask, ret.
    fold metaDataFilePath. rewrite Hopen. subst w'. rewrite <- app_assoc. reflexivity.
  - exists "Error opening ", ("'s metadata file at " +:+ metaDataFilePath +:+ ": " +:+ Error err).
    reflexivity.
  - exists ("Error opening " +:+ contractName +:+ "'s metadata file at "), (": " +:+ Error err).
    simpl. rewrite !append_assoc. reflexivity.
Qed.

(** X20: when running the template fails, the error names the contract and
    the path, the success line is not logged, and the file is closed. *)
Theorem writeContractMetadata_execute_failure
    (localMetaData : localContractMetadata) (etherscanMetaData : etherscanContractMetadata)
    (w : World) (err : error) :
  os_OpenFile env (w ++ [EvOpenFile metaDataFilePath]) metaDataFilePath = None ->
  let failure :=
    Errorf ("Error writing " +:+ contractName +:+ "'s contract metadata at "
            +:+ metaDataFilePath +:+ ": " +:+ Error err) in
  (let w1 := w ++ [EvOpenFile metaDataFilePath;
                   EvExecuteLocalTemplate metaDataFilePath localMetaData] in
   template_Execute_local env w1 metaDataFilePath localMetaData = Some err ->
   writeLocalContractMetadata env localMetaData metadataOutputDir contractName w
   = (Some failure, w1 ++ [EvCloseFile metaDataFilePath]))
  /\
  (let w1 := w ++ [EvOpenFile metaDataFilePath;
                   EvExecuteEtherscanTemplate metaDataFilePath etherscanMetaData] in
   template_Execute_etherscan env w1 metaDataFilePath etherscanMetaData = Some err ->
   writeEtherscanContractMetadata env etherscanMetaData metadataOutputDir contractName w
   = (Some failure, w1 ++ [EvCloseFile metaDataFilePath]))
  /\ mentions contractName (Error failure)
  /\ mentions metaDataFilePath (Error failure).
Proof.
  intros Hopen failure. split; [|split; [|split]].
  - intros w1 Hexec.
    unfold writeLocalContractMetadata, with_defer, bind, emit, ask, ret.
    fold metaDataFilePath. rewrite Hopen.
    replace ((w ++ [EvOpenFile metaDataFilePath])
               ++ [EvExecuteLocalTemplate metaDataFilePath localMetaData]) with w1
      by (subst w1; rewrite <- app_assoc; reflexivity).
    rewrite Hexec. reflexivity.
  - intros w1 Hexec.
    unfold writeEtherscanContractMetadata, with_defer, bind, emit, ask, ret.
    fold metaDataFilePath. rewrite Hopen.
    replace ((w ++ [EvOpenFile metaDataFilePath])
               ++ [EvExecuteEtherscanTemplate metaDataFilePath etherscanMetaData]) with w1
      by (subst w1; rewrite <- app_assoc; reflexivity).
    rewrite Hexec. reflexivity.
  - exists "Error writing ", ("'s contract metadata at " +:+ metaDataFilePath +:+ ": " +:+ Error err).
    reflexivity.
  - exists ("Error writing " +:+ contractName +:+ "'s contract metadata at "), (": " +:+ Error err).
    simpl. rewrite !append_assoc. reflexivity.
Qed.

End WriteMetadata.

(** ** Runs of the generators, further *)

Lemma removeTempArtifactsDir_log {SL} (env : Env SL) (dir : string) (w : World) :
  removeTempArtifactsDir env dir w
  = (tt, w ++ [EvRemoveAll dir; EvLog (removal_log env dir w)]).
Proof.
  unfold removeTempArtifactsDir, removal_log, bind, emit, ask.
  destruct (os_RemoveAll env _ dir) as [err|]; rewrite <- app_assoc; reflexivity.
Qed.

Lemma with_defer_removal {SL} (env : Env SL) {A} (body : M A) (dir : string) (w : World) :
  with_defer body (removeTempArtifactsDir env dir) w
  = ((body w).1, (body w).2 ++ [EvRemoveAll dir; EvLog (removal_log env dir (body w).2)]).
Proof.
  unfold with_defer. rewrite bind_run, bind_run, removeTempArtifactsDir_log. reflexivity.
Qed.

Section RunsFurther.

Context {SL : Type} `{!Inhabited SL} (env : Env SL).
Variable mkTempArtifactsDir : World -> string * option error.
Variables contractListFilePath sourceMapsListStr goPackageName metadataOutputDir : string.

(** The start of a local run up to the walk. *)
Lemma genLocalBindings_start (forgeArtifactsPath monorepoBasePath : string)
    (w : World) (data : contractsData) :
  let w1 := w ++ [EvReadJSONFile contractListFilePath] in
  let w2 := w1 ++ [EvMkTempArtifactsDir] in
  let dir := (mkTempArtifactsDir w2).1 in
  readJSONFile env w1 contractListFilePath = (data, None) ->
  cd_Local data <> [] ->
  genLocalBindings env mkTempArtifactsDir contractListFilePath sourceMapsListStr
    forgeArtifactsPath goPackageName monorepoBasePath metadataOutputDir w
  = with_defer
      (let* '(contractArtifactPaths, err) :=
         getContractArtifactPaths_at env forgeArtifactsPath in
       match err with
       | Some err => ret (Some err)
       | None =>
           genLocalBindings_loop env forgeArtifactsPath goPackageName monorepoBasePath
             metadataOutputDir dir contractArtifactPaths
             (sourceMapsSet_of sourceMapsListStr) (cd_Local data)
       end)
      (removeTempArtifactsDir env dir) w2.
Proof.
  intros w1 w2 dir Hread Hnonempty.
  unfold genLocalBindings, readLocalContractList.
  unfold bind at 1. unfold bind at 1. unfold emit at 1. fold w1.
  unfold bind at 1. unfold ask at 1. rewrite Hread. unfold ret at 1.
  destruct (cd_Local data) as [|c cs] eqn:Hlist; [done|].
  rewrite bool_decide_eq_false_2 by (simpl; lia).
  unfold bind at 1. unfold emit at 1. fold w2.
  unfold bind at 1. unfold ask at 1.
  subst dir. destruct (mkTempArtifactsDir w2) as [tmp tmperr]. reflexivity.
Qed.

(** X21: an error of the directory walk is returned as it is; no contract
    is processed, and the temporary directory, which exists by then, is
    removed. *)
Theorem genLocalBindings_walk_error (forgeArtifactsPath monorepoBasePath : string)
    (w : World) (data : contractsData) (err : error) :
  let w1 := w ++ [EvReadJSONFile contractListFilePath] in
  let w2 := w1 ++ [EvMkTempArtifactsDir] in
  let w3 := w2 ++ [EvWalk forgeArtifactsPath] in
  let dir := (mkTempArtifactsDir w2).1 in
  readJSONFile env w1 contractListFilePath = (data, None) ->
  cd_Local data <> [] ->
  (getContractArtifactPaths (filepath_Walk env w3 forgeArtifactsPath)).2 = Some err ->
  genLocalBindings env mkTempArtifactsDir contractListFilePath sourceMapsListStr
    forgeArtifactsPath goPackageName monorepoBasePath metadataOutputDir w
  = (Some err, w3 ++ [EvRemoveAll dir; EvLog (removal_log env dir w3)]).
Proof.
  intros w1 w2 w3 dir Hread Hnonempty Hwalk.
  rewrite (genLocalBindings_start _ _ w data Hread Hnonempty).
  rewrite with_defer_removal. fold w1 w2 dir.
  unfold getContractArtifactPaths_at, bind, emit, ask, ret. fold w3.
  destruct (getContractArtifactPaths _) as [paths walkerr]. simpl in Hwalk. subst walkerr.
  reflexivity.
Qed.

(** X22: once the manifest has given at least one contract, a run ends,
    whatever happened in between and whatever it returns, with the removal
    of the temporary directory and one log line about it; a failed
    removal changes the log line and not the result. *)
Theorem gen_removes_temp_dir (w : World) (data : contractsData) :
  let w1 := w ++ [EvReadJSONFile contractListFilePath] in
  let w2 := w1 ++ [EvMkTempArtifactsDir] in
  let dir := (mkTempArtifactsDir w2).1 in
  readJSONFile env w1 contractListFilePath = (data, None) ->
  (cd_Local data <> [] ->
   forall forgeArtifactsPath monorepoBasePath,
   exists w',
     (genLocalBindings env mkTempArtifactsDir contractListFilePath sourceMapsListStr
        forgeArtifactsPath goPackageName monorepoBasePath metadataOutputDir w).2
     = w' ++ [EvRemoveAll dir; EvLog (removal_log env dir w')])
  /\
  (cd_Etherscan data <> [] ->
   forall etherscanApiKey apiMaxRetries apiRetryDelay,
   let body :=
     genEtherscanBindings_loop env etherscanApiKey goPackageName metadataOutputDir
       apiMaxRetries apiRetryDelay dir (cd_Etherscan data) w2 in
   genEtherscanBindings env mkTempArtifactsDir contractListFilePath sourceMapsListStr
     etherscanApiKey goPackageName metadataOutputDir apiMaxRetries apiRetryDelay w
   = (body.1, body.2 ++ [EvRemoveAll dir; EvLog (removal_log env dir body.2)])).
Proof.
  intros w1 w2 dir Hread. split.
  - intros Hnonempty forgeArtifactsPath monorepoBasePath.
    rewrite (genLocalBindings_start _ _ w data Hread Hnonempty).
    rewrite with_defer_removal. eexists. reflexivity.
  - intros Hnonempty etherscanApiKey apiMaxRetries apiRetryDelay body.
    rewrite (genEtherscanBindings_run env mkTempArtifactsDir _ _ _ _ _ _ _ w data Hread
               Hnonempty).
    apply with_defer_removal.
Qed.

(** X23: when the manifest cannot be read or parsed, both generators
    return an error that names the path and carries the cause, whatever
    part of the lists was parsed, and do nothing else. *)
Theorem gen_manifest_error (w : World) (data : contractsData) (err : error) :
  let w1 := w ++ [EvReadJSONFile contractListFilePath] in
  let failure :=
    Errorf ("Error reading contract list " +:+ contractListFilePath +:+ ": " +:+ Error err) in
  readJSONFile env w1 contractListFilePath = (data, Some err) ->
  (forall forgeArtifactsPath monorepoBasePath,
     genLocalBindings env mkTempArtifactsDir contractListFilePath sourceMapsListStr
       forgeArtifactsPath goPackageName monorepoBasePath metadataOutputDir w
     = (Some failure, w1))
  /\
  (forall etherscanApiKey apiMaxRetries apiRetryDelay,
     genEtherscanBindings env mkTempArtifactsDir contractListFilePath sourceMapsListStr
       etherscanApiKey goPackageName metadataOutputDir apiMaxRetries apiRetryDelay w
     = (Some failure, w1)).
Proof.
  intros w1 failure Hread. split; intros.
  - unfold genLocalBindings, readLocalContractList, bind, emit, ask, ret.
    fold w1. rewrite Hread. reflexivity.
  - unfold genEtherscanBindings, readEtherscanContractsList, bind, emit, ask, ret.
    fold w1. rewrite Hread. reflexivity.
Qed.

End RunsFurther.

(** ** What each generator never does *)

Section Never.

Context {SL : Type} `{!Inhabited SL} (env : Env SL).
Variable mkTempArtifactsDir : World -> string * option error.

Lemma removeTempArtifactsDir_silent (P : Event -> bool) (dir : string) :
  P (EvRemoveAll dir) = false -> (forall msg, P (EvLog msg) = false) ->
  silent P (removeTempArtifactsDir env dir).
Proof.
  intros Hremove Hlog. unfold removeTempArtifactsDir.
  apply silent_bind; [apply silent_emit, Hremove|]. intros _.
  apply silent_bind; [apply silent_ask|]. intros [err|]; apply silent_emit, Hlog.
Qed.

(** *** The local generator issues no HTTP request *)

Lemma readForgeArtifact_no_request (forgeArtifactsPath contractName : string)
    (contractArtifactPaths : gmap string string) :
  silent is_HttpGet
    (readForgeArtifact env forgeArtifactsPath contractName contractArtifactPaths).
Proof. unfold readForgeArtifact, ReadFile. silent_steps. Qed.

Lemma writeLocalContractMetadata_no_request (contractMetaData : localContractMetadata)
    (metadataOutputDir contractName : string) :
  silent is_HttpGet
    (writeLocalContractMetadata env contractMetaData metadataOutputDir contractName).
Proof. unfold writeLocalContractMetadata. silent_steps. Qed.

Lemma genLocalBindings_contract_no_request
    (forgeArtifactsPath goPackageName monorepoBasePath metadataOutputDir : string)
    (tempArtifactsDir : string) (contractArtifactPaths : gmap string string)
    (sourceMapsSet : gset string) (contractName : string) :
  silent is_HttpGet
    (genLocalBindings_contract env forgeArtifactsPath goPackageName monorepoBasePath
       metadataOutputDir tempArtifactsDir contractArtifactPaths sourceMapsSet contractName).
Proof.
  unfold genLocalBindings_contract.
  apply silent_bind; [apply silent_emit; reflexivity|]. intros _.
  apply silent_bind; [apply readForgeArtifact_no_request|]. intros [forgeArtifact [err|]].
  - apply silent_ret.
  - apply silent_bind; [apply silent_emit; reflexivity|]. intros _.
    apply silent_bind; [apply silent_ask|]. intros [[abiFilePath bytecodeFilePath] [err|]].
    + apply silent_ret.
    + apply silent_bind; [apply silent_emit; reflexivity|]. intros _.
      apply silent_bind; [apply silent_ask|]. intros [err|].
      * apply silent_ret.
      * destruct (canonicalizeStorageLayout _ _ _ _ _) as [[sm sl] e].
        apply writeLocalContractMetadata_no_request.
Qed.

Lemma genLocalBindings_loop_no_request
    (forgeArtifactsPath goPackageName monorepoBasePath metadataOutputDir : string)
    (tempArtifactsDir : string) (contractArtifactPaths : gmap string string)
    (sourceMapsSet : gset string) (contracts : list string) :
  silent is_HttpGet
    (genLocalBindings_loop env forgeArtifactsPath goPackageName monorepoBasePath
       metadataOutputDir tempArtifactsDir contractArtifactPaths sourceMapsSet contracts).
Proof.
  induction contracts as [|c contracts IH]; simpl.
  - apply silent_ret.
  - apply silent_bind; [apply genLocalBindings_contract_no_request|].
    intros [err|]; [apply silent_ret|exact IH].
Qed.

(** X24: a run of [genLocalBindings] issues no HTTP request. *)
Theorem genLocalBindings_no_request
    (contractListFilePath sourceMapsListStr forgeArtifactsPath goPackageName
       monorepoBasePath metadataOutputDir : string) (w : World) :
  requests
    (genLocalBindings env mkTempArtifactsDir contractListFilePath sourceMapsListStr
       forgeArtifactsPath goPackageName monorepoBasePath metadataOutputDir w).2
  = requests w.
Proof.
  unfold requests. f_equal. revert w.
  change (silent is_HttpGet
            (genLocalBindings env mkTempArtifactsDir contractListFilePath sourceMapsListStr
               forgeArtifactsPath goPackageName monorepoBasePath metadataOutputDir)).
  unfold genLocalBindings, readLocalContractList.
  apply silent_bind; [silent_steps|]. intros [contracts [err|]]; [apply silent_ret|].
  destruct (bool_decide _); [apply silent_ret|].
  apply silent_bind; [apply silent_emit; reflexivity|]. intros _.
  apply silent_bind; [apply silent_ask|]. intros [tempArtifactsDir err].
  apply silent_with_defer; [|apply removeTempArtifactsDir_silent; reflexivity].
  unfold getContractArtifactPaths_at.
  apply silent_bind; [silent_steps|]. intros [paths [e|]]; [apply silent_ret|].
  apply genLocalBindings_loop_no_request.
Qed.

(** *** The Etherscan generator reads no artifact *)

Lemma fetchEtherscanData_no_read (url : string) :
  silent is_file_read (fetchEtherscanData env url).
Proof. unfold fetchEtherscanData. silent_steps. Qed.

Lemma fetchEtherscanAbi_no_read (url : string) (apiMaxRetries apiRetryDelay : Z) :
  silent is_file_read (fetchEtherscanAbi env url apiMaxRetries apiRetryDelay).
Proof.
  unfold fetchEtherscanAbi. cbv zeta.
  induction (Z.to_nat apiMaxRetries) as [|remaining IH]; simpl.
  - apply silent_ret.
  - apply silent_bind.
    + unfold fetchEtherscanAbi_attempt.
      apply silent_bind; [apply fetchEtherscanData_no_read|]. intros [body [err|]].
      * apply silent_ret.
      * destruct (json_Unmarshal_etherscanApiResponse env body) as [r [e|]];
          silent_steps.
    + intros [|r]; [exact IH|apply silent_ret].
Qed.

Lemma fetchEtherscanBytecode_no_read (url : string) :
  silent is_file_read (fetchEtherscanBytecode env url).
Proof.
  unfold fetchEtherscanBytecode.
  apply silent_bind; [apply fetchEtherscanData_no_read|]. intros [body [err|]].
  - apply silent_ret.
  - destruct (json_Unmarshal_etherscanRpcApiResponse env body) as [r [e|]]; silent_steps.
Qed.

Lemma writeEtherscanContractMetadata_no_read (contractMetaData : etherscanContractMetadata)
    (metadataOutputDir contractName : string) :
  silent is_file_read
    (writeEtherscanContractMetadata env contractMetaData metadataOutputDir contractName).
Proof. unfold writeEtherscanContractMetadata. silent_steps. Qed.

Lemma genEtherscanBindings_contract_no_read
    (etherscanApiKey goPackageName metadataOutputDir : string)
    (apiMaxRetries apiRetryDelay : Z) (tempArtifactsDir : string)
    (contract : etherscanContract) :
  silent is_file_read
    (genEtherscanBindings_contract env etherscanApiKey goPackageName metadataOutputDir
       apiMaxRetries apiRetryDelay tempArtifactsDir contract).
Proof.
  unfold genEtherscanBindings_contract.
  apply silent_bind; [apply silent_emit; reflexivity|]. intros _.
  apply silent_bind; [apply fetchEtherscanAbi_no_read|]. intros [abi [err|]].
  - apply silent_ret.
  - apply silent_bind; [apply fetchEtherscanBytecode_no_read|]. intros [bytecode [err|]].
    + apply silent_ret.
    + apply silent_bind; [apply silent_emit; reflexivity|]. intros _.
      apply silent_bind; [apply silent_ask|].
      intros [[abiFilePath bytecodeFilePath] [err|]].
      * apply silent_ret.
      * apply silent_bind; [apply silent_emit; reflexivity|]. intros _.
        apply silent_bind; [apply silent_ask|]. intros [err|].
        -- apply silent_ret.
        -- apply writeEtherscanContractMetadata_no_read.
Qed.

(** X25: a run of [genEtherscanBindings] reads no artifact file and walks
    no directory, and the source-maps list it is given changes nothing. *)
Theorem genEtherscanBindings_no_read
    (contractListFilePath sourceMapsListStr sourceMapsListStr' : string)
    (etherscanApiKey goPackageName metadataOutputDir : string)
    (apiMaxRetries apiRetryDelay : Z) (w : World) :
  let run :=
    genEtherscanBindings env mkTempArtifactsDir contractListFilePath sourceMapsListStr
      etherscanApiKey goPackageName metadataOutputDir apiMaxRetries apiRetryDelay w in
  List.filter is_file_read run.2 = List.filter is_file_read w
  /\ run
     = genEtherscanBindings env mkTempArtifactsDir contractListFilePath sourceMapsListStr'
         etherscanApiKey goPackageName metadataOutputDir apiMaxRetries apiRetryDelay w.
Proof.
  intros run. split; [|reflexivity]. subst run. revert w.
  change (silent is_file_read
            (genEtherscanBindings env mkTempArtifactsDir contractListFilePath
               sourceMapsListStr etherscanApiKey goPackageName metadataOutputDir
               apiMaxRetries apiRetryDelay)).
  unfold genEtherscanBindings, readEtherscanContractsList.
  apply silent_bind; [silent_steps|]. intros [contracts [err|]]; [apply silent_ret|].
  destruct (bool_decide _); [apply silent_ret|].
  apply silent_bind; [apply silent_emit; reflexivity|]. intros _.
  apply silent_bind; [apply silent_ask|]. intros [tempArtifactsDir err].
  apply silent_with_defer; [|apply removeTempArtifactsDir_silent; reflexivity].
  cbv zeta. induction contracts as [|c contracts IH]; simpl.
  - apply silent_ret.
  - apply silent_bind; [apply genEtherscanBindings_contract_no_read|].
    intros [e|]; [apply silent_ret|exact IH].
Qed.

End Never.

(** ** The state file reader of cannon *)

Section ParseStateProperties.

Import Cannon.

Context {State : Type}.
Variable ioutil_OpenDecompressed : list Action -> string -> option error.
Variable state_Deserialize : list Action -> string -> State * option error.

(** X28: a state file that cannot be opened is neither read nor closed;
    the error names the path, ends with the message of the cause, and is
    still recognized as [os.ErrNotExist] when the cause is. *)
Theorem parseState_open_failure (path : string) (done : list Action) (err : error) :
  ioutil_OpenDecompressed (done ++ [OpenDecompressed path]) path = Some err ->
  exists failure,
    parseState ioutil_OpenDecompressed state_Deserialize path done
    = (None, Some failure, done ++ [OpenDecompressed path])
    /\ Error failure = "cannot open state file (" +:+ path +:+ "): " +:+ Error err
    /\ mentions path (Error failure)
    /\ is_ErrNotExist failure = is_ErrNotExist err.
Proof.
  intros Hopen. unfold parseState. rewrite Hopen. eexists. split; [reflexivity|].
  unfold Errorf_w. simpl. rewrite !append_assoc.
  split; [reflexivity|]. split; [|reflexivity].
  exists "cannot open state file (", ("): " +:+ Error err). reflexivity.
Qed.

(** X29: a state file that opens is deserialized once and then closed,
    whether or not the deserialization succeeds; the result is either a
    state and no error, or no state and an error. *)
Theorem parseState_opened (path : string) (done : list Action) :
  ioutil_OpenDecompressed (done ++ [OpenDecompressed path]) path = None ->
  let run := parseState ioutil_OpenDecompressed state_Deserialize path done in
  run.2 = done ++ [OpenDecompressed path; Deserialize path; Close path]
  /\ ((exists state, run.1 = (Some state, None))
      \/ (exists failure, run.1 = (None, Some failure) /\ mentions path (Error failure))).
Proof.
  intros Hopen run. subst run. unfold parseState. rewrite Hopen.
  destruct (state_Deserialize _ path) as [state [err|]]; simpl.
  - split; [rewrite <- !app_assoc; reflexivity|]. right. eexists. split; [reflexivity|].
    unfold Errorf_w. simpl. rewrite !append_assoc.
    exists "invalid mipsevm state (", ("): " +:+ Error err). reflexivity.
  - split; [rewrite <- !app_assoc; reflexivity|]. left. eauto.
Qed.

End ParseStateProperties.

(** ** From the source-maps list to the metadata *)

(** X26: for a contract whose artifact is read, staged, bound and
    marshaled without error, the metadata record that is written holds the
    escaped canonical layout and the deployed bytecode of the artifact, and
    holds the deployed source map exactly when the contract name is one of
    the comma-separated fields of the source-maps list. *)
Theorem genLocalBindings_contract_metadata {SL} `{!Inhabited SL} (env : Env SL)
    (sourceMapsListStr forgeArtifactsPath goPackageName monorepoBasePath
       metadataOutputDir tempArtifactsDir : string)
    (contractArtifactPaths : gmap string string) (contractName : string) (w read : World)
    (forgeArtifact : Artifact SL) (abiFilePath bytecodeFilePath json : string) :
  let staged :=
    read ++ [EvWriteContractArtifacts tempArtifactsDir contractName
               (art_Abi forgeArtifact) (art_Bytecode_Object forgeArtifact)] in
  let bound :=
    staged ++ [EvGenContractBindings abiFilePath bytecodeFilePath goPackageName contractName] in
  let contractMetaData :=
    {| lm_Name := contractName;
       lm_StorageLayout := escape_quotes json;
       lm_DeployedBin := art_DeployedBytecode_Object forgeArtifact;
       lm_Package := goPackageName;
       lm_DeployedSourceMap :=
         if bool_decide (contractName ∈ GoString.Split sourceMapsListStr ",")
         then art_DeployedBytecode_SourceMap forgeArtifact
         else "" |} in
  readForgeArtifact env forgeArtifactsPath contractName contractArtifactPaths
    (w ++ [EvLog (LogGeneratingLocal contractName)]) = (forgeArtifact, None, read) ->
  writeContractArtifacts env staged tempArtifactsDir contractName
    (art_Abi forgeArtifact) (art_Bytecode_Object forgeArtifact)
  = (abiFilePath, bytecodeFilePath, None) ->
  genContractBindings env bound abiFilePath bytecodeFilePath goPackageName contractName
  = None ->
  json_Marshal_StorageLayout env
    (ast_CanonicalizeASTIDs env (art_StorageLayout forgeArtifact) monorepoBasePath)
  = (json, None) ->
  genLocalBindings_contract env forgeArtifactsPath goPackageName monorepoBasePath
    metadataOutputDir tempArtifactsDir contractArtifactPaths
    (sourceMapsSet_of sourceMapsListStr) contractName w
  = writeLocalContractMetadata env contractMetaData metadataOutputDir contractName bound.
Proof.
  intros staged bound contractMetaData Hread Hstage Hbind Hmarshal.
  unfold genLocalBindings_contract.
  unfold bind at 1. unfold emit at 1.
  unfold bind at 1. rewrite Hread.
  unfold bind at 1. unfold emit at 1. fold staged.
  unfold bind at 1. unfold ask at 1. rewrite Hstage.
  unfold bind at 1. unfold emit at 1. fold bound.
  unfold bind at 1. unfold ask at 1. rewrite Hbind.
  unfold canonicalizeStorageLayout. cbv zeta. rewrite Hmarshal.
  subst contractMetaData.
  rewrite (bool_decide_ext _ _ (elem_of_sourceMapsSet_of sourceMapsListStr contractName)).
  reflexivity.
Qed.

(** ** The number of requests of a run *)

Section RequestBudget.

Context {SL : Type} (env : Env SL).
Variable mkTempArtifactsDir : World -> string * option error.
Variables etherscanApiKey goPackageName metadataOutputDir : string.
Variables apiMaxRetries apiRetryDelay : Z.









End RequestBudget.

(** ** The further properties at concrete inputs *)

Lemma plain_name_Foo : plain_name "Foo".
Proof. split; [discriminate|reflexivity]. Defined.

Lemma digit_run_0 : digit_run "0".
Proof. split; [discriminate|reflexivity]. Defined.

Lemma digit_run_8 : digit_run "8".
Proof. split; [discriminate|reflexivity]. Defined.

Lemma digit_run_15 : digit_run "15".
Proof. split; [discriminate|reflexivity]. Defined.

Lemma getContractArtifactPaths_plain_file_witness :
  (getContractArtifactPaths
     ([("out", None); ("out/Foo.sol", None)]
      ++ ("out/Foo.sol" +:+ "/" +:+ "Foo" +:+ ".json", None)
      :: [("out/Foo.sol/Foo.0.8.15.json", None)])).1 !! "Foo"
  = Some "out/Foo.sol/Foo.json".
Proof.
  etrans.
  - apply (getContractArtifactPaths_plain_file
             [("out", None); ("out/Foo.sol", None)]
             [("out/Foo.sol/Foo.0.8.15.json", None)] "out/Foo.sol" "Foo" plain_name_Foo).
    repeat constructor.
  - vm_compute. reflexivity.
Defined.

Lemma getContractArtifactPaths_versioned_file_witness :
  (getContractArtifactPaths
     ([("out/a", None); ("out/a/Foo.json", None)]
      ++ ("out/b" +:+ "/" +:+ ("Foo" +:+ version_suffix "0" "8" "15") +:+ ".json", None)
      :: [])).1 !! "Foo"
  = Some "out/a/Foo.json".
Proof.
  etrans.
  - apply (getContractArtifactPaths_versioned_file
             [("out/a", None); ("out/a/Foo.json", None)] [] "out/b" "Foo" "0" "8" "15"
             plain_name_Foo digit_run_0 digit_run_8 digit_run_15).
    repeat constructor.
  - vm_compute. reflexivity.
Defined.

Lemma getContractArtifactPaths_sound_witness :
  In ("out/Bar.sol/Bar.json", None) Faulty.tree
  /\ GoString.HasSuffix "out/Bar.sol/Bar.json" ".json" = true
  /\ ArtifactPaths.sanitized "out/Bar.sol/Bar.json" = "Bar".
Proof.
  apply (getContractArtifactPaths_sound Faulty.tree "Bar" "out/Bar.sol/Bar.json").
  vm_compute. reflexivity.
Defined.

Lemma getContractArtifactPaths_walk_error_witness :
  getContractArtifactPaths
    ([("out", None); ("out/Bar.sol/Bar.json", None)]
       ++ ("out/Foo.sol", Some Faulty.permission_denied)
       :: [("out/Foo.sol/Foo.json", None)])
  = ((getContractArtifactPaths [("out", None); ("out/Bar.sol/Bar.json", None)]).1,
     Some Faulty.permission_denied).
Proof.
  apply (getContractArtifactPaths_walk_error
           [("out", None); ("out/Bar.sol/Bar.json", None)]
           [("out/Foo.sol/Foo.json", None)] "out/Foo.sol" Faulty.permission_denied).
  repeat constructor.
Defined.

Lemma getContractArtifactPaths_keeps_first_witness :
  (getContractArtifactPaths
     ([("out", None); ("out/Bar.sol/Bar.json", None)]
        ++ ("out/Foo.sol/Foo.0.8.15.json", None)
        :: [("out/Foo.sol/Foo.json", None)])).1
    !! ArtifactPaths.sanitized "out/Foo.sol/Foo.0.8.15.json"
  = Some "out/Foo.sol/Foo.0.8.15.json".
Proof.
  apply (getContractArtifactPaths_keeps_first
           [("out", None); ("out/Bar.sol/Bar.json", None)]
           [("out/Foo.sol/Foo.json", None)] "out/Foo.sol/Foo.0.8.15.json").
  - repeat constructor.
  - repeat constructor; vm_compute; intros; discriminate.
  - reflexivity.
Defined.

Lemma getContractArtifactPaths_json_only_witness :
  getContractArtifactPaths Faulty.tree
  = getContractArtifactPaths
      (List.filter (fun e => GoString.HasSuffix e.1 ".json") Faulty.tree).
Proof.
  apply (getContractArtifactPaths_json_only Faulty.tree). repeat constructor.
Defined.

Lemma getContractArtifactPaths_versioned_later_witness :
  let first := "out/a" +:+ "/" +:+ "Foo" +:+ ".json" in
  let later := "out/b" +:+ "/" +:+ ("Foo" +:+ version_suffix "0" "8" "15") +:+ ".json" in
  ArtifactPaths.sanitized later = ArtifactPaths.sanitized first
  /\ (getContractArtifactPaths
        ([("out", None)] ++ (first, None) :: [("out/b", None)] ++ (later, None) :: [])).1
       !! "Foo"
     = Some first.
Proof.
  apply (getContractArtifactPaths_versioned_later [("out", None)] [("out/b", None)] []
           "out/a" "out/b" "Foo" "0" "8" "15"
           plain_name_Foo digit_run_0 digit_run_8 digit_run_15).
  - repeat constructor.
  - repeat constructor. vm_compute. intros; discriminate.
Defined.

Lemma fetchEtherscanAbi_no_attempt_witness :
  fetchEtherscanAbi Scripted.recovering_env "https://api.etherscan.io/api" 0 5 []
  = ("", Some (Errorf ("Failed to fetch ABI after " +:+ pretty 0 +:+ " retries")), []).
Proof.
  apply (fetchEtherscanAbi_no_attempt Scripted.recovering_env). lia.
Defined.

Lemma retryDelay_of_range_witness :
  retryDelay_of 5 = 5 * Second
  /\ retryDelay_of 9223372037 = 9223372037 * Second - 2 ^ 64
  /\ retryDelay_of 9223372037 < 0.
Proof.
  split.
  - apply (proj1 (retryDelay_of_range 5)). lia.
  - apply (proj2 (retryDelay_of_range 9223372037)). lia.
Defined.

Lemma fetchEtherscanBytecode_verbatim_witness :
  let url := etherscanGetBytecodeURL "0xf00" "KEY" in
  fetchEtherscanBytecode Scripted.limited_env url []
  = (rpc_Result (mkRpcApiResponse "2.0" 1 Scripted.rate_limit_body), None,
     [] ++ [EvHttpGet url]).
Proof.
  intros url.
  apply (fetchEtherscanBytecode_verbatim Scripted.limited_env url Scripted.rate_limit_body).
  - reflexivity.
  - reflexivity.
Defined.

Lemma readForgeArtifact_standard_witness :
  readForgeArtifact Scripted.failing_second_env "artifacts" "A" ∅ []
  = (mkArtifact "[abi]" "layout" "1:2:3" "0xdeployed" "0xbin", None,
     [] ++ [EvReadFile "artifacts/A.sol/A.json";
            EvLog (LogUsingArtifact "artifacts/A.sol/A.json")]).
Proof.
  exact (readForgeArtifact_standard Scripted.failing_second_env "artifacts" "A" ∅ []
           Scripted.artifact_file None eq_refl eq_refl).
Defined.

Lemma readForgeArtifact_fallback_witness :
  readForgeArtifact Scripted.failing_second_env "src" "C"
    {["C" := "artifacts/C.sol/C.json"]} []
  = (mkArtifact "[abi]" "layout" "1:2:3" "0xdeployed" "0xbin", None,
     ([] ++ [EvReadFile "src/C.sol/C.json";
             EvLog (LogCannotFindArtifact "C" "src/C.sol/C.json" "artifacts/C.sol/C.json");
             EvReadFile "artifacts/C.sol/C.json"])
       ++ [EvLog (LogUsingArtifact "artifacts/C.sol/C.json")]).
Proof.
  exact (readForgeArtifact_fallback Scripted.failing_second_env "src" "C"
           {["C" := "artifacts/C.sol/C.json"]} [] "" Scripted.artifact_file
           (Some Scripted.not_exist) None eq_refl eq_refl eq_refl eq_refl).
Defined.

Lemma readForgeArtifact_missing_witness :
  readForgeArtifact Scripted.failing_second_env "artifacts" "B" ∅ []
  = (Artifact_zero,
     Some (Errorf ("Cannot find forge-artifact of "
                   +:+ strconv_Quote Scripted.failing_second_env "B"
                   +:+ String (ascii_of_nat 10) "")),
     [] ++ [EvReadFile "artifacts/B.sol/B.json";
            EvLog (LogCannotFindArtifact "B" "artifacts/B.sol/B.json" "");
            EvReadFile ""]).
Proof.
  exact (readForgeArtifact_missing Scripted.failing_second_env "artifacts" "B" ∅ [] "" ""
           (Some Scripted.not_exist) (Some Scripted.not_exist)
           eq_refl eq_refl eq_refl eq_refl).
Defined.

Lemma sourceMapsSet_of_Join_witness :
  "B" ∈ sourceMapsSet_of (Join ["A"; "B"] ",") <-> "B" ∈ ["A"; "B"] \/ (["A"; "B"] = [] /\ "B" = "").
Proof.
  apply (sourceMapsSet_of_Join ["A"; "B"] "B"). repeat constructor.
Defined.

Lemma writeContractMetadata_open_failure_witness :
  let env := Faulty.with_output Scripted.limited_env (Some Faulty.permission_denied) None in
  let failure :=
    Errorf ("Error opening " +:+ "Foo" +:+ "'s metadata file at "
            +:+ "out/Foo_more.go" +:+ ": " +:+ "permission denied") in
  writeLocalContractMetadata env (mkLocalMetadata "Foo" "{}" "0x00" "bindings" "") "out" "Foo" []
  = (Some failure, [EvOpenFile "out/Foo_more.go"; EvCloseFile "out/Foo_more.go"])
  /\ writeEtherscanContractMetadata env (mkEtherscanMetadata "Foo" "0x00" "bindings") "out"
       "Foo" []
     = (Some failure, [EvOpenFile "out/Foo_more.go"; EvCloseFile "out/Foo_more.go"])
  /\ mentions "Foo" (Error failure)
  /\ mentions "out/Foo_more.go" (Error failure).
Proof.
  exact (writeContractMetadata_open_failure
           (Faulty.with_output Scripted.limited_env (Some Faulty.permission_denied) None)
           "out" "Foo" (mkLocalMetadata "Foo" "{}" "0x00" "bindings" "")
           (mkEtherscanMetadata "Foo" "0x00" "bindings") [] Faulty.permission_denied
           eq_refl).
Defined.

Lemma writeContractMetadata_execute_failure_witness :
  let env := Faulty.with_output Scripted.limited_env None (Some Faulty.no_space) in
  let failure :=
    Errorf ("Error writing " +:+ "Foo" +:+ "'s contract metadata at "
            +:+ "out/Foo_more.go" +:+ ": " +:+ "no space left on device") in
  let localMetaData := mkLocalMetadata "Foo" "{}" "0x00" "bindings" "" in
  writeLocalContractMetadata env localMetaData "out" "Foo" []
  = (Some failure,
     [EvOpenFile "out/Foo_more.go"; EvExecuteLocalTemplate "out/Foo_more.go" localMetaData;
      EvCloseFile "out/Foo_more.go"]).
Proof.
  intros env failure localMetaData.
  exact (proj1 (writeContractMetadata_execute_failure env "out" "Foo" localMetaData
                  (mkEtherscanMetadata "Foo" "0x00" "bindings") [] Faulty.no_space eq_refl)
           eq_refl).
Defined.

Lemma genLocalBindings_walk_error_witness :
  genLocalBindings Faulty.unreadable_tree_env Scripted.mkTemp_ok "contracts.json" ""
    "artifacts" "bindings" "/monorepo" "out" []
  = (Some Faulty.permission_denied,
     [EvReadJSONFile "contracts.json"; EvMkTempArtifactsDir; EvWalk "artifacts";
      EvRemoveAll "/tmp/op-bindings"; EvLog LogRemovedTempDir]).
Proof.
  exact (genLocalBindings_walk_error Faulty.unreadable_tree_env Scripted.mkTemp_ok
           "contracts.json" "" "bindings" "out" "artifacts" "/monorepo" []
           (mkContractsData ["A"] []) Faulty.permission_denied
           eq_refl ltac:(discriminate) eq_refl).
Defined.

Lemma gen_removes_temp_dir_witness :
  (exists w',
     (genLocalBindings Scripted.failing_second_env Scripted.mkTemp_ok "contracts.json" "A,C"
        "artifacts" "bindings" "/monorepo" "out" []).2
     = w' ++ [EvRemoveAll "/tmp/op-bindings";
              EvLog (removal_log Scripted.failing_second_env "/tmp/op-bindings" w')])
  /\ (genEtherscanBindings Scripted.failing_second_env Scripted.mkTemp_ok "contracts.json"
        "A,C" "KEY" "bindings" "out" 3 1 []).1
     = Some (Errorf "connection refused").
Proof.
  destruct (gen_removes_temp_dir Scripted.failing_second_env Scripted.mkTemp_ok
              "contracts.json" "A,C" "bindings" "out" [] Scripted.three_contracts eq_refl)
    as [Hlocal Hetherscan].
  split.
  - exact (Hlocal ltac:(discriminate) "artifacts" "/monorepo").
  - rewrite (Hetherscan ltac:(discriminate) "KEY" 3 1). vm_compute. reflexivity.
Defined.

Lemma gen_manifest_error_witness :
  let env :=
    Faulty.with_manifest_error Scripted.failing_second_env Scripted.three_contracts
      (Errorf "unexpected end of JSON input") in
  let failure :=
    Errorf ("Error reading contract list " +:+ "contracts.json" +:+ ": "
            +:+ "unexpected end of JSON input") in
  genLocalBindings env Scripted.mkTemp_ok "contracts.json" "" "artifacts" "bindings"
    "/monorepo" "out" []
  = (Some failure, [EvReadJSONFile "contracts.json"])
  /\ genEtherscanBindings env Scripted.mkTemp_ok "contracts.json" "" "KEY" "bindings" "out"
       3 1 []
     = (Some failure, [EvReadJSONFile "contracts.json"]).
Proof.
  intros env failure.
  destruct (gen_manifest_error env Scripted.mkTemp_ok "contracts.json" "" "bindings" "out"
              [] Scripted.three_contracts (Errorf "unexpected end of JSON input") eq_refl)
    as [Hlocal Hetherscan].
  split.
  - exact (Hlocal "artifacts" "/monorepo").
  - exact (Hetherscan "KEY" 3 1).
Defined.

Lemma genLocalBindings_contract_metadata_witness :
  let contractMetaData := mkLocalMetadata "A" "layout" "0xdeployed" "bindings" "1:2:3" in
  (genLocalBindings_contract Scripted.failing_second_env "artifacts" "bindings" "/monorepo"
     "out" "/tmp/op-bindings" ∅ (sourceMapsSet_of "A,C") "A" []).2
  = [EvLog (LogGeneratingLocal "A"); EvReadFile "artifacts/A.sol/A.json";
     EvLog (LogUsingArtifact "artifacts/A.sol/A.json");
     EvWriteContractArtifacts "/tmp/op-bindings" "A" "[abi]" "0xbin";
     EvGenContractBindings "/tmp/op-bindings/A.abi" "/tmp/op-bindings/A.bin" "bindings" "A";
     EvOpenFile "out/A_more.go"; EvExecuteLocalTemplate "out/A_more.go" contractMetaData;
     EvLog (LogWroteMetadata "A" "out/A_more.go"); EvCloseFile "out/A_more.go"].
Proof.
  intros contractMetaData.
  rewrite (genLocalBindings_contract_metadata Scripted.failing_second_env "A,C" "artifacts"
             "bindings" "/monorepo" "out" "/tmp/op-bindings" ∅ "A" []
             [EvLog (LogGeneratingLocal "A"); EvReadFile "artifacts/A.sol/A.json";
              EvLog (LogUsingArtifact "artifacts/A.sol/A.json")]
             (mkArtifact "[abi]" "layout" "1:2:3" "0xdeployed" "0xbin")
             "/tmp/op-bindings/A.abi" "/tmp/op-bindings/A.bin" "layout"
             eq_refl eq_refl eq_refl eq_refl).
  vm_compute. reflexivity.
Defined.

Lemma parseState_open_failure_witness :
  exists failure,
    Cannon.parseState Faulty.open_state Faulty.deserialize_state "missing.json" []
    = (None, Some failure, [] ++ [Cannon.OpenDecompressed "missing.json"])
    /\ Error failure
       = "cannot open state file (" +:+ "missing.json" +:+ "): " +:+ Error Scripted.not_exist
    /\ mentions "missing.json" (Error failure)
    /\ is_ErrNotExist failure = is_ErrNotExist Scripted.not_exist.
Proof.
  exact (parseState_open_failure Faulty.open_state Faulty.deserialize_state "missing.json" []
           Scripted.not_exist eq_refl).
Defined.

Lemma parseState_opened_witness :
  let run := Cannon.parseState Faulty.open_state Faulty.deserialize_state "state.json" [] in
  run.2 = [] ++ [Cannon.OpenDecompressed "state.json"; Cannon.Deserialize "state.json";
                 Cannon.Close "state.json"]
  /\ ((exists state, run.1 = (Some state, None))
      \/ (exists failure, run.1 = (None, Some failure)
                          /\ mentions "state.json" (Error failure))).
Proof.
  exact (parseState_opened Faulty.open_state Faulty.deserialize_state "state.json" []
           eq_refl).
Defined.
